(** * QR Local: identifier allocation, custom keys and redirect resolution

    A shallow embedding of the request handlers of [index.js]
    ([generateBase32Id], [POST /api/add], [GET /api/check],
    [GET /:base32id], [DELETE /api/delete/:id]) over an explicit model of
    the [redirects] table, followed by the properties of the written
    specification that concern them.

    Conventions of the model.
    - A JavaScript string is a [string]: a sequence of code units below
      256.  [toLowerCase] is exact on that range.
    - The [redirects] table is the list of its rows in rowid order, the
      order in which a full scan of the table visits them.
    - Every [await] and every store callback is a point where other
      requests may run.  A handler is therefore given as the sequence of
      its store steps, each against the table as it is at that moment, and
      also as their composition against one table (the handler running
      alone).
    - The store fails only through its PRIMARY KEY constraint; input and
      output failures of the database file are outside the model.
    - [Date.now()], [Math.random()] and [CURRENT_TIMESTAMP] are inputs. *)

From Stdlib Require Import String Ascii List Bool Arith NArith ZArith Lia DecimalString.
Import ListNotations.
Open Scope string_scope.

(** ** JavaScript strings *)

Module Js.

(** Decimal rendering of a non-negative integer, as template literals and
    string concatenation produce it. *)
Definition showNat (n : nat) : string := NilEmpty.string_of_uint (Nat.to_uint n).
Definition showN (n : N) : string := NilEmpty.string_of_uint (N.to_uint n).

Definition inRange (lo hi n : nat) : bool := Nat.leb lo n && Nat.leb n hi.

(** [String.prototype.toLowerCase] on one code unit below 256: A-Z and the
    Latin-1 capitals U+00C0..U+00DE (U+00D7, the multiplication sign,
    excepted) move up by 32. *)
Definition lowerChar (c : ascii) : ascii :=
  let n := nat_of_ascii c in
  if inRange 65 90 n then ascii_of_nat (n + 32)
  else if inRange 192 222 n && negb (Nat.eqb n 215) then ascii_of_nat (n + 32)
  else c.

Fixpoint toLowerCase (s : string) : string :=
  match s with
  | EmptyString => EmptyString
  | String c r => String (lowerChar c) (toLowerCase r)
  end.

(** [s.replace(/c/g, '')] for a single literal character [c]. *)
Fixpoint removeAll (c : ascii) (s : string) : string :=
  match s with
  | EmptyString => EmptyString
  | String d r => if Ascii.eqb d c then removeAll c r else String d (removeAll c r)
  end.

(** [s.substring(a, b)] for non-negative integers: both ends are clamped to
    the length and swapped when out of order. *)
Definition substring (a b : nat) (s : string) : string :=
  let len := String.length s in
  let a' := Nat.min a len in
  let b' := Nat.min b len in
  String.substring (Nat.min a' b') (Nat.max a' b' - Nat.min a' b') s.

(** [hay.includes(needle)]. *)
Fixpoint includes (needle hay : string) : bool :=
  String.prefix needle hay ||
  match hay with
  | EmptyString => false
  | String _ r => includes needle r
  end.

Fixpoint forallb (p : ascii -> bool) (s : string) : bool :=
  match s with
  | EmptyString => true
  | String c r => p c && forallb p r
  end.

(** The character class [[A-Z2-7]] under the [i] flag.  Without the [u]
    flag a code unit of 128 or more never folds onto an ASCII letter, so
    the class matches exactly A-Z, a-z and 2-7. *)
Definition isBase32Char (c : ascii) : bool :=
  let n := nat_of_ascii c in
  inRange 65 90 n || inRange 97 122 n || inRange 50 55 n.

(** [/^[A-Z2-7]+$/i.test(s)]: at least one character, all in the class. *)
Definition testBase32 (s : string) : bool :=
  match s with
  | EmptyString => false
  | String _ _ => forallb isBase32Char s
  end.

(** The characters a stored identifier may consist of: the lower-case
    form of the class, a-z and 2-7. *)
Definition isLowerBase32Char (c : ascii) : bool :=
  let n := nat_of_ascii c in
  inRange 97 122 n || inRange 50 55 n.

(** *** Values of a request body

    The primitive JSON values; objects and arrays are not modelled.  A
    number is an integer here, only its being zero is ever observed. *)
Inductive Value : Type :=
| Undefined
| Null
| Bool (b : bool)
| Number (n : Z)
| Str (s : string).

(** ToBoolean. *)
Definition truthy (v : Value) : bool :=
  match v with
  | Undefined | Null => false
  | Bool b => b
  | Number n => negb (Z.eqb n 0)
  | Str s => negb (String.eqb s "")
  end.

Definition isString (v : Value) : bool :=
  match v with Str _ => true | _ => false end.

End Js.

(** ** The [redirects] table

    [CREATE TABLE redirects (id TEXT PRIMARY KEY, url TEXT NOT NULL,
    created DATETIME DEFAULT CURRENT_TIMESTAMP, visits INTEGER DEFAULT 0,
    last_visit DATETIME)].  A timestamp is a number of seconds.  An INTEGER
    column holds a signed 64-bit value; the counter is taken as a natural
    number, which it is for fewer than 2^63 visits. *)

Module Store.

Record Row : Type := mkRow {
  id : string;
  url : string;
  created : N;
  visits : N;
  last_visit : option N
}.

Definition Table : Type := list Row.

Definition hasId (k : string) (r : Row) : bool := String.eqb (id r) k.
Definition hasUrl (u : string) (r : Row) : bool := String.eqb (url r) u.

(** [db.get('SELECT ... FROM redirects WHERE id = ?', [k])]: the first
    matching row, or [undefined]. *)
Definition getById (t : Table) (k : string) : option Row := find (hasId k) t.

(** [db.get('SELECT * FROM redirects WHERE url = ?', [u])]. *)
Definition getByUrl (t : Table) (u : string) : option Row := find (hasUrl u) t.

(** [db.run('INSERT INTO redirects (id, url) VALUES (?, ?)', [k, u])]:
    refused ([None]) when the primary key is taken; otherwise the new row
    takes the defaults of the remaining columns. *)
Definition insert (t : Table) (now : N) (k u : string) : option Table :=
  match getById t k with
  | Some _ => None
  | None => Some (t ++ [mkRow k u now 0 None])%list
  end.

Definition visit (now : N) (r : Row) : Row :=
  mkRow (id r) (url r) (created r) (visits r + 1) (Some now).

(** [UPDATE redirects SET visits = visits + 1, last_visit =
    CURRENT_TIMESTAMP WHERE id = ?]. *)
Definition recordVisit (t : Table) (now : N) (k : string) : Table :=
  map (fun r => if hasId k r then visit now r else r) t.

(** [DELETE FROM redirects WHERE id = ?]. *)
Definition delete (t : Table) (k : string) : Table :=
  filter (fun r => negb (hasId k r)) t.

(** The primary-key constraint as a property of a table. *)
Definition keysUnique (t : Table) : Prop := NoDup (map id t).

End Store.

(** ** Responses *)

Inductive Response : Type :=
| Redirect (location : string)
| Send (status : nat) (body : string)
| JsonError (status : nat) (error : string)
| Created (asJson : bool) (qr_url base32_id original_url : string)
| CheckFound (qr_url base32_id original_url : string)
             (created visits : N) (last_visit : option N)
| CheckAbsent
| Deleted (deleted_id deleted_url : string).

(** The error kinds of the specification, as the handlers report them. *)
Definition InvalidURL (r : Response) : Prop :=
  r = JsonError 400 "URL is required" \/ r = JsonError 400 "Invalid URL format".
Definition InvalidKeyFormat (r : Response) : Prop :=
  exists msg, r = JsonError 400 msg /\ String.prefix "Custom key must " msg = true.
Definition DuplicateKey (r : Response) : Prop :=
  r = JsonError 409 "Custom key already exists. Choose a different key.".
Definition AllocationExhausted (r : Response) : Prop :=
  r = JsonError 500 "Unable to generate unique ID".
Definition StoreFailure (r : Response) : Prop :=
  r = JsonError 500 "Database error".
Definition NotFound (r : Response) : Prop :=
  r = Send 404 "Redirect not found" \/ r = JsonError 404 "Redirect not found".

(** ** The handlers *)

Record Entropy : Type := mkEntropy {
  timestamp : N;      (* Date.now() *)
  random : string     (* Math.random().toString() *)
}.

Record AddRequest : Type := mkAdd {
  body_url : Js.Value;
  body_key : Js.Value;
  accept : option string
}.

(** What [POST /api/add] has decided when it reaches [db.run]: an answer
    already given, or a row to insert. *)
Inductive AddStage : Type :=
| Answered (r : Response)
| ToInsert (id url : string).

(** The identifier length of the command line.  Without a numeric argument
    [maxBase32Length] keeps its initial value; a numeric argument replaces
    it when [length > 0 && length <= 20] and otherwise ends the process
    ([None]). *)
Definition defaultLength : nat := 7.

Definition lengthArgument (length : Z) : option nat :=
  if (0 <? length)%Z && (length <=? 20)%Z then Some (Z.to_nat length) else None.

Section Server.

(** Configuration and the library functions the handlers call. *)
Variable maxBase32Length : nat.
(** [crypto.createHash('md5').update(s).digest('hex')] *)
Variable md5Hex : string -> string.
(** [base32.encode] *)
Variable base32Encode : string -> string.
(** [new URL(s)] returns without throwing *)
Variable urlParses : string -> bool.

Definition maxAttempts : nat := 10.

(** The candidate of one iteration of [generateBase32Id]. *)
Definition candidate (url : string) (e : Entropy) (attempts : nat) : string :=
  let hash := md5Hex (url ++ Js.showN (timestamp e) ++ random e ++ Js.showNat attempts) in
  Js.substring 0 maxBase32Length
    (Js.removeAll "=" (Js.toLowerCase (base32Encode hash))).

(** The loop of [generateBase32Id], entered with [attempts] and
    [remaining = maxAttempts - attempts].  [ent k] and [tbl k] are the
    entropy drawn and the table queried in the iteration whose attempt
    index is [k].  The result lists the candidates looked up, in order, and
    gives the identifier returned, [None] standing for the thrown
    ['Unable to generate unique ID after maximum attempts']. *)
Fixpoint generateFrom (remaining attempts : nat) (url : string)
    (ent : nat -> Entropy) (tbl : nat -> Store.Table) : list string * option string :=
  match remaining with
  | 0 => ([], None)
  | S remaining' =>
      let id := candidate url (ent attempts) attempts in
      match Store.getById (tbl attempts) id with
      | None => ([id], Some id)
      | Some _ =>
          let (probed, result) := generateFrom remaining' (S attempts) url ent tbl in
          (id :: probed, result)
      end
  end.

Definition generateBase32Id (url : string)
    (ent : nat -> Entropy) (tbl : nat -> Store.Table) : list string * option string :=
  generateFrom maxAttempts 0 url ent tbl.

Definition keyLengthError : string :=
  "Custom key must be a string between 1 and " ++ Js.showNat maxBase32Length ++ " characters".
Definition keyAlphabetError : string :=
  "Custom key must contain only base32 characters (A-Z, 2-7)".

(** The custom-key branch of [POST /api/add], entered when [key] is
    truthy. *)
Definition customKey (key : Js.Value) (url : string) (t : Store.Table) : AddStage :=
  match key with
  | Js.Str k =>
      if Nat.eqb (String.length k) 0 || Nat.ltb maxBase32Length (String.length k)
      then Answered (JsonError 400 keyLengthError)
      else if negb (Js.testBase32 k)
      then Answered (JsonError 400 keyAlphabetError)
      else match Store.getById t (Js.toLowerCase k) with
           | Some _ => Answered (JsonError 409 "Custom key already exists. Choose a different key.")
           | None => ToInsert (Js.toLowerCase k) url
           end
  | _ => Answered (JsonError 400 keyLengthError)
  end.

(** [POST /api/add] up to its [db.run]. *)
Definition addPrepare (req : AddRequest)
    (ent : nat -> Entropy) (tbl : nat -> Store.Table) : AddStage :=
  if negb (Js.truthy (body_url req))
  then Answered (JsonError 400 "URL is required")
  else match body_url req with
       | Js.Str url =>
           if negb (urlParses url)
           then Answered (JsonError 400 "Invalid URL format")
           else if Js.truthy (body_key req)
           then customKey (body_key req) url (tbl 0)
           else match snd (generateBase32Id url ent tbl) with
                | Some id => ToInsert id url
                | None => Answered (JsonError 500 "Unable to generate unique ID")
                end
       | _ => Answered (JsonError 400 "Invalid URL format")
       end.

Definition wantsJson (req : AddRequest) : bool :=
  match accept req with
  | Some a => Js.includes "application/json" a
  | None => false
  end.

(** The [db.run] of [POST /api/add] and its callback. *)
Definition addInsert (t : Store.Table) (now : N) (asJson : bool) (id url : string)
    : Store.Table * Response :=
  match Store.insert t now id url with
  | None => (t, JsonError 500 "Database error")
  | Some t' => (t', Created asJson ("qr.local/" ++ id) id url)
  end.

(** [POST /api/add] among other requests: [tbl] is the table at each of
    its lookups, [t] the table when its insert runs. *)
Definition apiAddAmong (req : AddRequest) (ent : nat -> Entropy)
    (tbl : nat -> Store.Table) (t : Store.Table) (now : N) : Store.Table * Response :=
  match addPrepare req ent tbl with
  | Answered r => (t, r)
  | ToInsert id url => addInsert t now (wantsJson req) id url
  end.

(** [POST /api/add] running alone. *)
Definition apiAdd (t : Store.Table) (now : N) (ent : nat -> Entropy) (req : AddRequest)
    : Store.Table * Response :=
  apiAddAmong req ent (fun _ => t) t now.

(** [GET /:base32id] up to its answer: the response, and the identifier
    whose counter update has been queued. *)
Definition resolveLookup (t : Store.Table) (base32id : string) : Response * option string :=
  let id := Js.toLowerCase base32id in
  match Store.getById t id with
  | Some row => (Redirect (Store.url row), Some id)
  | None => (Send 404 "Redirect not found", None)
  end.

(** [GET /:base32id] running alone. *)
Definition apiResolve (t : Store.Table) (now : N) (base32id : string)
    : Store.Table * Response :=
  match resolveLookup t base32id with
  | (r, Some id) => (Store.recordVisit t now id, r)
  | (r, None) => (t, r)
  end.

(** [GET /api/check]. *)
Definition apiCheck (t : Store.Table) (url : Js.Value) : Response :=
  if negb (Js.truthy url)
  then JsonError 400 "URL parameter is required"
  else match url with
       | Js.Str u =>
           if negb (urlParses u)
           then JsonError 400 "Invalid URL format"
           else match Store.getByUrl t u with
                | Some row =>
                    CheckFound ("qr.local/" ++ Store.id row) (Store.id row) (Store.url row)
                      (Store.created row) (Store.visits row) (Store.last_visit row)
                | None => CheckAbsent
                end
       | _ => JsonError 400 "Invalid URL format"
       end.

(** [DELETE /api/delete/:id] running alone. *)
Definition apiDelete (t : Store.Table) (id : string) : Store.Table * Response :=
  if String.eqb id ""
  then (t, JsonError 400 "ID parameter is required")
  else match Store.getById t (Js.toLowerCase id) with
       | None => (t, JsonError 404 "Redirect not found")
       | Some row =>
           (Store.delete t (Js.toLowerCase id), Deleted (Store.id row) (Store.url row))
       end.

(** A request, with the clock and entropy it meets.  The pages under
    [/human] and the QR code routes only read the table and are left
    out. *)
Inductive Request : Type :=
| Add (now : N) (ent : nat -> Entropy) (req : AddRequest)
| Resolve (now : N) (base32id : string)
| Check (url : Js.Value)
| Delete (id : string).

(** Requests served one at a time. *)
Definition handle (t : Store.Table) (q : Request) : Store.Table * Response :=
  match q with
  | Add now ent req => apiAdd t now ent req
  | Resolve now base32id => apiResolve t now base32id
  | Check url => (t, apiCheck t url)
  | Delete id => apiDelete t id
  end.

End Server.

(** ** The library functions, for running the handlers

    [index.js] obtains its digest from Node's [crypto], its encoder from
    the package [base32] and its URL check from the [URL] constructor; none
    of them is part of the repository.  The definitions below stand for
    them wherever a handler is run on concrete input: [Base32Package] is
    the encoder of the package, [Base32] the codec of the specification. *)

Module MD5.

Local Open Scope N_scope.

(** The MD5 message digest of RFC 1321 over 32-bit words held in [N]. *)
Definition w32 (x : N) : N := x mod 2 ^ 32.
Definition not32 (x : N) : N := N.lxor x 0xffffffff.
Definition rotl (x c : N) : N := w32 (N.lor (N.shiftl x c) (N.shiftr x (32 - c))).

Definition K : list N :=
  [0xd76aa478; 0xe8c7b756; 0x242070db; 0xc1bdceee;
   0xf57c0faf; 0x4787c62a; 0xa8304613; 0xfd469501;
   0x698098d8; 0x8b44f7af; 0xffff5bb1; 0x895cd7be;
   0x6b901122; 0xfd987193; 0xa679438e; 0x49b40821;
   0xf61e2562; 0xc040b340; 0x265e5a51; 0xe9b6c7aa;
   0xd62f105d; 0x02441453; 0xd8a1e681; 0xe7d3fbc8;
   0x21e1cde6; 0xc33707d6; 0xf4d50d87; 0x455a14ed;
   0xa9e3e905; 0xfcefa3f8; 0x676f02d9; 0x8d2a4c8a;
   0xfffa3942; 0x8771f681; 0x6d9d6122; 0xfde5380c;
   0xa4beea44; 0x4bdecfa9; 0xf6bb4b60; 0xbebfbc70;
   0x289b7ec6; 0xeaa127fa; 0xd4ef3085; 0x04881d05;
   0xd9d4d039; 0xe6db99e5; 0x1fa27cf8; 0xc4ac5665;
   0xf4292244; 0x432aff97; 0xab9423a7; 0xfc93a039;
   0x655b59c3; 0x8f0ccc92; 0xffeff47d; 0x85845dd1;
   0x6fa87e4f; 0xfe2ce6e0; 0xa3014314; 0x4e0811a1;
   0xf7537e82; 0xbd3af235; 0x2ad7d2bb; 0xeb86d391].

Definition shifts : list N :=
  [7; 12; 17; 22; 7; 12; 17; 22; 7; 12; 17; 22; 7; 12; 17; 22;
   5; 9; 14; 20; 5; 9; 14; 20; 5; 9; 14; 20; 5; 9; 14; 20;
   4; 11; 16; 23; 4; 11; 16; 23; 4; 11; 16; 23; 4; 11; 16; 23;
   6; 10; 15; 21; 6; 10; 15; 21; 6; 10; 15; 21; 6; 10; 15; 21].

Definition State : Type := (N * N * N * N)%type.

Definition init : State := (0x67452301, 0xefcdab89, 0x98badcfe, 0x10325476).

Definition step (M : list N) (st : State) (i : nat) : State :=
  let '(a, b, c, d) := st in
  let f :=
    if Nat.ltb i 16 then N.lor (N.land b c) (N.land (not32 b) d)
    else if Nat.ltb i 32 then N.lor (N.land d b) (N.land (not32 d) c)
    else if Nat.ltb i 48 then N.lxor b (N.lxor c d)
    else N.lxor c (N.lor b (not32 d)) in
  let g :=
    (if Nat.ltb i 16 then i
     else if Nat.ltb i 32 then (5 * i + 1) mod 16
     else if Nat.ltb i 48 then (3 * i + 5) mod 16
     else (7 * i) mod 16)%nat in
  let f' := w32 (f + a + nth i K 0 + nth g M 0) in
  (d, w32 (b + rotl f' (nth i shifts 0)), b, c).

Fixpoint words (bytes : list N) : list N :=
  match bytes with
  | b0 :: b1 :: b2 :: b3 :: rest =>
      (b0 + 2 ^ 8 * b1 + 2 ^ 16 * b2 + 2 ^ 24 * b3) :: words rest
  | _ => []
  end.

Definition compress (st : State) (block : list N) : State :=
  let '(a0, b0, c0, d0) := st in
  let '(a, b, c, d) := fold_left (step (words block)) (seq 0 64) st in
  (w32 (a0 + a), w32 (b0 + b), w32 (c0 + c), w32 (d0 + d)).

Fixpoint blocks (fuel : nat) (bytes : list N) (st : State) : State :=
  match fuel, bytes with
  | S fuel', _ :: _ => blocks fuel' (skipn 64 bytes) (compress st (firstn 64 bytes))
  | _, _ => st
  end.

Definition le_bytes (count : nat) (x : N) : list N :=
  map (fun k => (x / 2 ^ (8 * N.of_nat k)) mod 256) (seq 0 count).

Definition pad (bytes : list N) : list N :=
  let len := List.length bytes in
  let zeros := ((64 + 55 - len mod 64) mod 64)%nat in
  (bytes ++ 0x80 :: repeat 0 zeros ++ le_bytes 8 (8 * N.of_nat len))%list.

(** The UTF-8 bytes of a string of code units below 256. *)
Fixpoint utf8 (s : string) : list N :=
  match s with
  | EmptyString => []
  | String c r =>
      let n := N_of_ascii c in
      if n <? 128 then n :: utf8 r
      else (192 + n / 64) :: (128 + n mod 64) :: utf8 r
  end.

Definition hexDigit (n : N) : ascii :=
  if n <? 10 then ascii_of_N (48 + n) else ascii_of_N (87 + n).

Fixpoint hex (bytes : list N) : string :=
  match bytes with
  | [] => EmptyString
  | b :: rest => String (hexDigit (b / 16)) (String (hexDigit (b mod 16)) (hex rest))
  end.

Definition digest (bytes : list N) : list N :=
  let padded := pad bytes in
  let '(a, b, c, d) := blocks (List.length padded) padded init in
  (le_bytes 4 a ++ le_bytes 4 b ++ le_bytes 4 c ++ le_bytes 4 d)%list.

Definition md5Hex (s : string) : string := hex (digest (utf8 s)).

End MD5.

Module Base32.

(** Modelled from the spec: the function [base32.encode] of the package
    [base32], which [index.js] requires and which is not part of the
    repository.  The Identifier Codec of the specification encodes bytes
    over the 32 symbols A-Z, 2-7 and may pad the result with [=], which is
    the base 32 encoding of RFC 4648: the bits of the input, most
    significant first, are cut into groups of five (the last one filled
    with zeros), each group selects a symbol, and [=] fills the output to a
    multiple of eight characters. *)
Definition alphabet : string := "ABCDEFGHIJKLMNOPQRSTUVWXYZ234567".

Definition bitsOfChar (c : ascii) : list bool :=
  let '(Ascii b0 b1 b2 b3 b4 b5 b6 b7) := c in [b7; b6; b5; b4; b3; b2; b1; b0].

Fixpoint bits (s : string) : list bool :=
  match s with
  | EmptyString => []
  | String c r => (bitsOfChar c ++ bits r)%list
  end.

Definition symbol (b4 b3 b2 b1 b0 : bool) : ascii :=
  let v := 16 * Nat.b2n b4 + 8 * Nat.b2n b3 + 4 * Nat.b2n b2 + 2 * Nat.b2n b1 + Nat.b2n b0 in
  match String.get v alphabet with
  | Some c => c
  | None => "="%char
  end.

Fixpoint symbols (bs : list bool) : string :=
  match bs with
  | [] => EmptyString
  | [a] => String (symbol a false false false false) EmptyString
  | [a; b] => String (symbol a b false false false) EmptyString
  | [a; b; c] => String (symbol a b c false false) EmptyString
  | [a; b; c; d] => String (symbol a b c d false) EmptyString
  | a :: b :: c :: d :: e :: rest => String (symbol a b c d e) (symbols rest)
  end.

Fixpoint padding (n : nat) : string :=
  match n with
  | 0 => EmptyString
  | S n' => String "="%char (padding n')
  end.

Definition encode (s : string) : string :=
  let body := symbols (bits s) in
  body ++ padding ((8 - String.length body mod 8) mod 8).

End Base32.

Module Base32Package.

(** [base32.encode] as the package [base32] that [index.js] requires
    computes it.  The bits of the input, most significant first, are cut
    into groups of five, the last one filled with zeros, and each group
    selects a symbol of the package's own alphabet: the digits and the
    lower-case letters without i, l, o and s.  Nothing is appended as
    padding.  This is the encoder the program runs with; [Base32.encode]
    above is the codec as the specification describes it. *)
Definition alphabet : string := "0123456789abcdefghjkmnpqrtuvwxyz".

Definition symbol (b4 b3 b2 b1 b0 : bool) : ascii :=
  let v := 16 * Nat.b2n b4 + 8 * Nat.b2n b3 + 4 * Nat.b2n b2 + 2 * Nat.b2n b1 + Nat.b2n b0 in
  match String.get v alphabet with
  | Some c => c
  | None => "0"%char
  end.

Fixpoint symbols (bs : list bool) : string :=
  match bs with
  | [] => EmptyString
  | [a] => String (symbol a false false false false) EmptyString
  | [a; b] => String (symbol a b false false false) EmptyString
  | [a; b; c] => String (symbol a b c false false) EmptyString
  | [a; b; c; d] => String (symbol a b c d false) EmptyString
  | a :: b :: c :: d :: e :: rest => String (symbol a b c d e) (symbols rest)
  end.

Definition encode (s : string) : string := symbols (Base32.bits s).

End Base32Package.

Module SampleUrl.

(** An acceptor standing for the [URL] constructor when a handler is run:
    it admits [http://] or [https://] followed by a host of lower-case
    letters and dots that begins and ends with a letter, all of which the
    constructor parses. *)
Definition isLetter (c : ascii) : bool := Js.inRange 97 122 (nat_of_ascii c).
Definition isHostChar (c : ascii) : bool := isLetter c || Ascii.eqb c "."%char.

Fixpoint endsWithLetter (s : string) : bool :=
  match s with
  | EmptyString => false
  | String c EmptyString => isLetter c
  | String _ r => endsWithLetter r
  end.

Definition isHost (s : string) : bool :=
  match s with
  | EmptyString => false
  | String c _ => isLetter c && Js.forallb isHostChar s && endsWithLetter s
  end.

Definition dropPrefix (p s : string) : option string :=
  if String.prefix p s
  then Some (String.substring (String.length p) (String.length s - String.length p) s)
  else None.

Definition urlParses (s : string) : bool :=
  match dropPrefix "https://" s, dropPrefix "http://" s with
  | Some host, _ => isHost host
  | None, Some host => isHost host
  | None, None => false
  end.

End SampleUrl.

(** ** Sample runs

    The handlers with the library functions above, and the inputs used
    in the examples: a destination, a clock, and two draws of entropy. *)

Module Sample.

Definition exampleUrl : string := "https://example.com".
Definition clock : N := 1700000000.
Definition entropy (k : nat) : Entropy := mkEntropy (1700000000000 + N.of_nat k) "0.5".
Definition laterEntropy (k : nat) : Entropy := mkEntropy (1700000000999 + N.of_nat k) "0.25".

Definition add (maxLength : nat) :=
  apiAdd maxLength MD5.md5Hex Base32.encode SampleUrl.urlParses.
Definition addAmong (maxLength : nat) :=
  apiAddAmong maxLength MD5.md5Hex Base32.encode SampleUrl.urlParses.
Definition prepare (maxLength : nat) :=
  addPrepare maxLength MD5.md5Hex Base32.encode SampleUrl.urlParses.
Definition check := apiCheck SampleUrl.urlParses.

Definition otherUrl : string := "https://other.example.org".

(** A table for a server configured with length 1, holding the
    identifiers [g], [h] and [m]. *)
Definition crowded : Store.Table :=
  map (fun k => Store.mkRow k otherUrl clock 0 None) ["g"; "h"; "m"].

(** A table holding every identifier of one character. *)
Definition full : Store.Table :=
  map (fun c => Store.mkRow (String c EmptyString) otherUrl clock 0 None)
    (list_ascii_of_string "abcdefghijklmnopqrstuvwxyz234567").

Definition keyless (url : string) : AddRequest := mkAdd (Js.Str url) Js.Undefined None.
Definition keyed (url key : string) : AddRequest := mkAdd (Js.Str url) (Js.Str key) None.

(** The table after a first add request for the sample destination, and
    after a second one a minute later. *)
Definition afterFirst : Store.Table :=
  fst (add 7 [] clock entropy (keyless exampleUrl)).
Definition afterSecond : Store.Table :=
  fst (add 7 afterFirst (clock + 60) laterEntropy (keyless exampleUrl)).

(** The table after an add request with the custom key [MYKEY23]. *)
Definition withKey : Store.Table :=
  fst (add 7 [] clock entropy (keyed exampleUrl "MYKEY23")).

End Sample.

(** ** Runs of the program

    The handlers with the digest of [crypto] and the encoder of the
    package, as the program runs them. *)

Module Program.

Definition add (maxLength : nat) :=
  apiAdd maxLength MD5.md5Hex Base32Package.encode SampleUrl.urlParses.
Definition addAmong (maxLength : nat) :=
  apiAddAmong maxLength MD5.md5Hex Base32Package.encode SampleUrl.urlParses.
Definition prepare (maxLength : nat) :=
  addPrepare maxLength MD5.md5Hex Base32Package.encode SampleUrl.urlParses.
Definition generate (maxLength : nat) :=
  generateBase32Id maxLength MD5.md5Hex Base32Package.encode.

(** The record of the first add request for the sample destination. *)
Definition first : Store.Row :=
  Store.mkRow "71gp8dt" Sample.exampleUrl Sample.clock 0 None.

(** Entropy drawn two milliseconds later, with which the allocator comes
    to [cmvkack]. *)
Definition raceEntropy (k : nat) : Entropy :=
  mkEntropy (1700000000002 + N.of_nat k) "0.5".

(** The table after another client has taken [cmvkack] as a custom key. *)
Definition taken : Store.Table :=
  fst (add 7 [] Sample.clock Sample.laterEntropy (Sample.keyed Sample.otherUrl "CMVKACK")).

(** A table holding a generated identifier and a custom key. *)
Definition mixed : Store.Table :=
  [first; Store.mkRow "mykey23" Sample.otherUrl (Sample.clock + 60) 0 None].

End Program.

(** ** Properties stated by the specification *)

(** What the handlers assume of the configuration and of the library
    functions. *)

(** The length accepted at start-up: [length > 0 && length <= 20]. *)
Definition lengthConfigured (maxBase32Length : nat) : Prop :=
  1 <= maxBase32Length <= 20.

(** A hexadecimal MD5 digest has 32 characters. *)
Definition hexDigest (md5Hex : string -> string) : Prop :=
  forall s, String.length (md5Hex s) = 32.

(** A character the Identifier Codec may emit: one of the 32 symbols in
    either case, or the padding character. *)
Definition isCodecChar (c : ascii) : bool := Js.isBase32Char c || Ascii.eqb c "="%char.

(** The contract of the Identifier Codec: only symbols of the alphabet and
    padding are emitted. *)
Definition codecAlphabet (encode : string -> string) : Prop :=
  forall s, Js.forallb isCodecChar (encode s) = true.

(** Base 32 spends a character on every five bits: without its padding an
    encoding is no shorter than its input. *)
Definition codecExpands (encode : string -> string) : Prop :=
  forall s, String.length s <= String.length (Js.removeAll "="%char (encode s)).

(** A destination the add and check handlers let through: a non-empty
    string that the [URL] constructor parses. *)
Definition validUrl (urlParses : string -> bool) (url : string) : Prop :=
  url <> "" /\ urlParses url = true.

(** Every character matches [[A-Z2-7]] case-insensitively. *)
Definition overAlphabet (s : string) : Prop := Js.forallb Js.isBase32Char s = true.
(** The string is its own lower-case form. *)
Definition normalized (s : string) : Prop := Js.toLowerCase s = s.
(** The string holds no padding character. *)
Definition unpadded (s : string) : Prop := Js.removeAll "="%char s = s.

(** Every identifier of one character over a-z and 2-7 is taken. *)
Definition singleCharactersTaken (t : Store.Table) : Prop :=
  forall c, Js.isLowerBase32Char c = true ->
    Store.getById t (String c EmptyString) <> None.

(** The rules of the Custom Key Validator, in the order and the words of
    the specification. *)
Inductive KeyRule : Type := NonEmptyString | LengthInRange | AlphabetOnly.

Definition ruleHolds (maxLength : nat) (rule : KeyRule) (key : Js.Value) : bool :=
  match key with
  | Js.Str k =>
      match rule with
      | NonEmptyString => negb (String.eqb k "")
      | LengthInRange => Nat.leb 1 (String.length k) && Nat.leb (String.length k) maxLength
      | AlphabetOnly => Js.forallb Js.isBase32Char k
      end
  | _ => false
  end.

Definition firstFailure (maxLength : nat) (key : Js.Value) : option KeyRule :=
  if negb (ruleHolds maxLength NonEmptyString key) then Some NonEmptyString
  else if negb (ruleHolds maxLength LengthInRange key) then Some LengthInRange
  else if negb (ruleHolds maxLength AlphabetOnly key) then Some AlphabetOnly
  else None.

(** The answer of [POST /api/add] to a key that breaks [rule]. *)
Definition keyError (maxLength : nat) (rule : KeyRule) : Response :=
  match rule with
  | NonEmptyString | LengthInRange => JsonError 400 (keyLengthError maxLength)
  | AlphabetOnly => JsonError 400 keyAlphabetError
  end.

(** ** Start-up: the command line

    [parseInt] and [toUpperCase] are built in.  [parseInt] is given as the
    mathematical integer it reads, [None] standing for [NaN]: the handlers
    only compare its result with small integers and keep it when it lies
    among them, where the integer and the Number agree. *)

Module Builtin.

(** White space and line terminators below 256. *)
Definition isWhiteSpace (c : ascii) : bool :=
  let n := nat_of_ascii c in
  Js.inRange 9 13 n || Nat.eqb n 32 || Nat.eqb n 160.

Fixpoint trimStart (s : string) : string :=
  match s with
  | EmptyString => EmptyString
  | String c r => if isWhiteSpace c then trimStart r else s
  end.

(** The value of a digit in the given radix. *)
Definition digitValue (radix : nat) (c : ascii) : option nat :=
  let n := nat_of_ascii c in
  let v := if Js.inRange 48 57 n then Some (n - 48)
           else if Js.inRange 97 122 n then Some (n - 87)
           else if Js.inRange 65 90 n then Some (n - 55)
           else None in
  match v with
  | Some d => if Nat.ltb d radix then Some d else None
  | None => None
  end.

(** The integer written by the longest prefix of digits, [acc] being the
    value read so far ([None] before the first digit). *)
Fixpoint readDigits (radix : nat) (acc : option Z) (s : string) : option Z :=
  match s with
  | EmptyString => acc
  | String c r =>
      match digitValue radix c with
      | Some d =>
          let sofar := match acc with Some a => a | None => 0%Z end in
          readDigits radix (Some (Z.of_nat radix * sofar + Z.of_nat d)%Z) r
      | None => acc
      end
  end.

(** [parseInt(s)] without a radix: leading white space, a sign, a [0x]
    prefix, then digits. *)
Definition parseInt (s : string) : option Z :=
  let trimmed := trimStart s in
  let (sign, unsigned) :=
    match trimmed with
    | String "-" r => ((-1)%Z, r)
    | String "+" r => (1%Z, r)
    | _ => (1%Z, trimmed)
    end in
  let (radix, body) :=
    match unsigned with
    | String "0" (String "x" r) => (16, r)
    | String "0" (String "X" r) => (16, r)
    | _ => (10, unsigned)
    end in
  match readDigits radix None body with
  | Some m => Some (sign * m)%Z
  | None => None
  end.

(** [toUpperCase] of one code unit below 256, as the code units of the
    result: the micro sign and y with diaeresis leave the range, and the
    sharp s becomes two letters. *)
Definition upperUnits (c : ascii) : list N :=
  let n := nat_of_ascii c in
  if Js.inRange 97 122 n then [N.of_nat (n - 32)]
  else if Js.inRange 224 254 n && negb (Nat.eqb n 247) then [N.of_nat (n - 32)]
  else if Nat.eqb n 181 then [924%N]
  else if Nat.eqb n 223 then [83%N; 83%N]
  else if Nat.eqb n 255 then [376%N]
  else [N.of_nat n].

Fixpoint toUpperCase (s : string) : list N :=
  match s with
  | EmptyString => []
  | String c r => (upperUnits c ++ toUpperCase r)%list
  end.

Fixpoint units (s : string) : list N :=
  match s with
  | EmptyString => []
  | String c r => N_of_ascii c :: units r
  end.

Fixpoint sameUnits (a b : list N) : bool :=
  match a, b with
  | [], [] => true
  | x :: a', y :: b' => N.eqb x y && sameUnits a' b'
  | _, _ => false
  end.

(** [choices.includes(s.toUpperCase())], with the member found. *)
Definition upperAmong (choices : list string) (s : string) : option string :=
  find (fun choice => sameUnits (units choice) (toUpperCase s)) choices.

(** [choices.includes(s.toLowerCase())], with the member found. *)
Definition lowerAmong (choices : list string) (s : string) : option string :=
  find (fun choice => String.eqb choice (Js.toLowerCase s)) choices.

(** [args[++i] || fallback]. *)
Definition orElse (value : option string) (fallback : string) : string :=
  match value with
  | Some s => if String.eqb s "" then fallback else s
  | None => fallback
  end.

End Builtin.

Module Startup.

Record Config : Type := mkConfig {
  maxBase32Length : nat;
  qrErrorCorrection : string;
  qrVersion : option Z;
  qrMode : string
}.

Definition initial : Config := mkConfig defaultLength "Q" None "alphanumeric".

(** How the argument loop ends: the server goes on with a configuration,
    or [process.exit(code)]. *)
Inductive Outcome : Type :=
| Started (c : Config)
| Exited (code : nat).

Definition levels : list string := ["L"; "M"; "Q"; "H"].
Definition modes : list string := ["numeric"; "alphanumeric"; "byte"].

(** [parseInt(args[++i])] passing [!v || v < 1 || v > 40]. *)
Definition versionArgument (value : option string) : option Z :=
  match value with
  | Some s =>
      match Builtin.parseInt s with
      | Some v => if Z.eqb v 0 || Z.ltb v 1 || Z.ltb 40 v then None else Some v
      | None => None
      end
  | None => None
  end.

(** The loop over [process.argv.slice(2)], from the argument at hand.  An
    option takes the argument after it, when there is one, as its value. *)
Fixpoint parseArgs (args : list string) (c : Config) : Outcome :=
  match args with
  | [] => Started c
  | arg :: rest =>
      let value := hd_error rest in
      let afterValue (c' : Config) : Outcome :=
        match rest with
        | [] => Started c'
        | _ :: rest' => parseArgs rest' c'
        end in
      if String.eqb arg "--qr-error" || String.eqb arg "-e" then
        match Builtin.upperAmong levels (Builtin.orElse value "Q") with
        | Some level =>
            afterValue (mkConfig (maxBase32Length c) level (qrVersion c) (qrMode c))
        | None => Exited 1
        end
      else if String.eqb arg "--qr-version" || String.eqb arg "-v" then
        match versionArgument value with
        | Some v =>
            afterValue (mkConfig (maxBase32Length c) (qrErrorCorrection c) (Some v) (qrMode c))
        | None => Exited 1
        end
      else if String.eqb arg "--qr-mode" || String.eqb arg "-m" then
        match Builtin.lowerAmong modes (Builtin.orElse value "alphanumeric") with
        | Some mode =>
            afterValue (mkConfig (maxBase32Length c) (qrErrorCorrection c) (qrVersion c) mode)
        | None => Exited 1
        end
      else if String.eqb arg "--help" || String.eqb arg "-h" then Exited 0
      else
        match Builtin.parseInt arg with
        | Some length =>
            match lengthArgument length with
            | Some n =>
                parseArgs rest (mkConfig n (qrErrorCorrection c) (qrVersion c) (qrMode c))
            | None => Exited 1
            end
        | None => parseArgs rest c
        end
  end.

Definition start (args : list string) : Outcome := parseArgs args initial.

(** A configuration the handlers can run with. *)
Definition wellFormed (c : Config) : Prop :=
  1 <= maxBase32Length c <= 20 /\
  In (qrErrorCorrection c) levels /\
  (forall v, qrVersion c = Some v -> (1 <= v <= 40)%Z) /\
  In (qrMode c) modes.

(** [a] is read as a number between 1 and 20. *)
Definition lengthInRange (a : string) : Prop :=
  exists z, Builtin.parseInt a = Some z /\ (0 < z <= 20)%Z.

(** [a] is read as a number outside 1 to 20. *)
Definition lengthOutOfRange (a : string) : Prop :=
  exists z, Builtin.parseInt a = Some z /\ ~ (0 < z <= 20)%Z.

End Startup.

(** ** QR codes

    The images are rendered by the package [qrcode].  [generateQRCode] is
    modelled up to its call of the renderer; the three routes take the
    renderer as a function that returns a string or throws, and build
    their answer from either outcome. *)

Module Qr.

(** The [options] object; [quality] is the constant 0.92, kept as a ratio. *)
Record Options : Type := mkOptions {
  errorCorrectionLevel : string;
  type : string;
  quality : nat * nat;
  margin : nat;
  dark : string;
  light : string;
  version : option Z;
  mode : string
}.

Definition isDigit (c : ascii) : bool := Js.inRange 48 57 (nat_of_ascii c).

(** [/^\d+$/.test(text)] *)
Definition testDigits (text : string) : bool :=
  match text with
  | EmptyString => false
  | String _ _ => Js.forallb isDigit text
  end.

(** The class [[A-Z0-9 $%*+\-./:]] under the [i] flag. *)
Definition isAlphanumericChar (c : ascii) : bool :=
  let n := nat_of_ascii c in
  Js.inRange 65 90 n || Js.inRange 97 122 n || Js.inRange 48 57 n ||
  existsb (Ascii.eqb c) [" "; "$"; "%"; "*"; "+"; "-"; "."; "/"; ":"]%char.

(** [/^[A-Z0-9 $%*+\-./:]*$/i.test(text)] *)
Definition testAlphanumeric (text : string) : bool := Js.forallb isAlphanumericChar text.

Definition chooseMode (qrMode text : string) : string :=
  if String.eqb qrMode "numeric" && testDigits text then "numeric"
  else if String.eqb qrMode "alphanumeric" && testAlphanumeric text then "alphanumeric"
  else "byte".

(** What [generateQRCode(text, format)] asks of the renderer:
    [QRCode.toString] for ['svg'], [QRCode.toDataURL] otherwise. *)
Inductive Rendering : Type :=
| ToString (text : string) (options : Options)
| ToDataURL (text : string) (options : Options).

Definition generateQRCode (c : Startup.Config) (text format : string) : Rendering :=
  let options :=
    mkOptions (Startup.qrErrorCorrection c)
      (if String.eqb format "svg" then "svg" else "png")
      (92, 100) 1 "#000000" "#FFFFFF"
      (match Startup.qrVersion c with
       | Some v => if Z.eqb v 0 then None else Some v
       | None => None
       end)
      (chooseMode (Startup.qrMode c) text) in
  if String.eqb format "svg" then ToString text options else ToDataURL text options.

Definition optionsOf (r : Rendering) : Options :=
  match r with
  | ToString _ options => options
  | ToDataURL _ options => options
  end.

Definition textOf (r : Rendering) : string :=
  match r with
  | ToString text _ => text
  | ToDataURL text _ => text
  end.

(** What a route sends: the PNG routes send the bytes
    [Buffer.from(base64Data, 'base64')], the SVG route the markup as the
    renderer returned it. *)
Inductive Body : Type :=
| FromBase64 (base64Data : string)
| Markup (svg : string).

(** [qrCode.replace(/^data:image\/png;base64,/, '')] *)
Definition stripDataUrl (qrCode : string) : string :=
  let lead := "data:image/png;base64," in
  if String.prefix lead qrCode
  then String.substring (String.length lead) (String.length qrCode - String.length lead) qrCode
  else qrCode.

(** The answer of a QR route: not found; the renderer asked and throwing,
    which the route answers with an error; or the renderer asked and its
    result sent with the given headers. *)
Inductive Answer : Type :=
| Missing (r : Response)
| Failed (asked : Rendering) (r : Response)
| Image (asked : Rendering) (body : Body) (headers : list (string * string)).

Definition askedOf (a : Answer) : option Rendering :=
  match a with
  | Missing _ => None
  | Failed asked _ => Some asked
  | Image asked _ _ => Some asked
  end.

Definition quoted (s : string) : string :=
  String (ascii_of_nat 34) (s ++ String (ascii_of_nat 34) EmptyString).

Section Routes.

(** The renderer of the package [qrcode]: the string it returns, or [None]
    when it throws. *)
Variable render : Rendering -> option string.

(** [GET /qr/:id/png] *)
Definition display (c : Startup.Config) (t : Store.Table) (id : string) : Answer :=
  match Store.getById t (Js.toLowerCase id) with
  | None => Missing (Send 404 "Redirect not found")
  | Some row =>
      let asked := generateQRCode c ("qr.local/" ++ Store.id row) "png" in
      match render asked with
      | Some qrCode =>
          Image asked (FromBase64 (stripDataUrl qrCode))
            [("Content-Type", "image/png"); ("Cache-Control", "public, max-age=86400")]
      | None => Failed asked (Send 500 "Failed to generate QR code")
      end
  end.

(** [GET /download/qr/:id/png], with its [const format = 'png']. *)
Definition downloadPng (c : Startup.Config) (t : Store.Table) (id : string) : Answer :=
  let format := "png" in
  match Store.getById t (Js.toLowerCase id) with
  | None => Missing (JsonError 404 "Redirect not found")
  | Some row =>
      let asked := generateQRCode c ("qr.local/" ++ Store.id row) (Js.toLowerCase format) in
      match render asked with
      | Some qrCode =>
          if String.eqb (Js.toLowerCase format) "svg"
          then Image asked (Markup qrCode)
                 [("Content-Type", "image/svg+xml");
                  ("Content-Disposition",
                   "attachment; filename=" ++ quoted ("qr-" ++ Store.id row ++ ".svg"))]
          else Image asked (FromBase64 (stripDataUrl qrCode))
                 [("Content-Type", "image/png");
                  ("Content-Disposition",
                   "attachment; filename=" ++ quoted ("qr-" ++ Store.id row ++ ".png"))]
      | None => Failed asked (JsonError 500 "Failed to generate QR code")
      end
  end.

(** [GET /download/qr/:id/svg] *)
Definition downloadSvg (c : Startup.Config) (t : Store.Table) (id : string) : Answer :=
  match Store.getById t (Js.toLowerCase id) with
  | None => Missing (JsonError 404 "Redirect not found")
  | Some row =>
      let asked := generateQRCode c ("qr.local/" ++ Store.id row) "svg" in
      match render asked with
      | Some qrCode =>
          Image asked (Markup qrCode)
            [("Content-Type", "image/svg+xml");
             ("Content-Disposition",
              "attachment; filename=" ++ quoted ("qr-" ++ Store.id row ++ ".svg"))]
      | None => Failed asked (JsonError 500 "Failed to generate QR code")
      end
  end.

End Routes.

End Qr.

(** ** Runs *)

Section Runs.

Variable maxBase32Length : nat.
Variable md5Hex : string -> string.
Variable base32Encode : string -> string.
Variable urlParses : string -> bool.

(** The table after a sequence of requests served one at a time. *)
Definition run (t : Store.Table) (requests : list Request) : Store.Table :=
  fold_left (fun t q => fst (handle maxBase32Length md5Hex base32Encode urlParses t q))
    requests t.

(** The table after the same identifier has been requested once at each of
    the given times. *)
Definition visitAt (base32id : string) (times : list N) (t : Store.Table) : Store.Table :=
  fold_left (fun t now => fst (apiResolve t now base32id)) times t.

End Runs.

(** Every identifier in the table is in lower case. *)
Definition lowerCaseIds (t : Store.Table) : Prop :=
  Forall (fun r => Js.toLowerCase (Store.id r) = Store.id r) t.

(** No identifier in the table is longer than [maxLength]. *)
Definition lengthBounded (maxLength : nat) (t : Store.Table) : Prop :=
  Forall (fun r => String.length (Store.id r) <= maxLength) t.

(** Inputs of further examples. *)
Module Scenario.

(** A table of a server started with length 1 in which [h] is taken. *)
Definition oneTaken : Store.Table := [Store.mkRow "h" Sample.otherUrl Sample.clock 0 None].

(** Two add requests for the sample destination, a minute apart. *)
Definition requests : list Request :=
  [Add Sample.clock Sample.entropy (Sample.keyless Sample.exampleUrl);
   Add (Sample.clock + 60) Sample.laterEntropy (Sample.keyless Sample.exampleUrl)].

Definition table : Store.Table :=
  run 7 MD5.md5Hex Base32.encode SampleUrl.urlParses [] requests.

Definition second : Store.Row :=
  Store.mkRow "gm4tmyz" Sample.exampleUrl (Sample.clock + 60) 0 None.

(** An add request from a client that accepts JSON among other types. *)
Definition negotiated : AddRequest :=
  mkAdd (Js.Str Sample.exampleUrl) Js.Undefined (Some "text/html, application/json;q=0.9").

(** The table after the program has served the two requests. *)
Definition served : Store.Table :=
  run 7 MD5.md5Hex Base32Package.encode SampleUrl.urlParses [] requests.

(** A server started with [-v 1], and a renderer that throws, as the
    package does when the text does not fit the version asked for. *)
Definition versionOne : Startup.Config := Startup.mkConfig 7 "Q" (Some 1%Z) "alphanumeric".

Definition tooBig (r : Qr.Rendering) : option string := None.

End Scenario.

(** * Strings *)

Module JsFacts.
Import Js.

Ltac by_cases_on_char c :=
  destruct c as [[] [] [] [] [] [] [] []]; vm_compute; try reflexivity; try discriminate; auto.

Lemma lowerChar_codec c :
  isCodecChar c = true ->
  Ascii.eqb (lowerChar c) "="%char = false ->
  isLowerBase32Char (lowerChar c) = true.
Proof. by_cases_on_char c. Qed.

Lemma lowerChar_base32 c :
  isBase32Char c = true -> isLowerBase32Char (lowerChar c) = true.
Proof. by_cases_on_char c. Qed.

Lemma lowerChar_padding c :
  Ascii.eqb (lowerChar c) "="%char = Ascii.eqb c "="%char.
Proof. by_cases_on_char c. Qed.

Lemma lowerChar_idem c : lowerChar (lowerChar c) = lowerChar c.
Proof. by_cases_on_char c. Qed.

Lemma lower_is_base32 c : isLowerBase32Char c = true -> isBase32Char c = true.
Proof. by_cases_on_char c. Qed.

Lemma lower_not_padding c : isLowerBase32Char c = true -> Ascii.eqb c "="%char = false.
Proof. by_cases_on_char c. Qed.

Lemma lower_fixed c : isLowerBase32Char c = true -> lowerChar c = c.
Proof. by_cases_on_char c. Qed.

Lemma toLowerCase_length s : String.length (toLowerCase s) = String.length s.
Proof. induction s as [|c r IH]; simpl; congruence. Qed.

Lemma toLowerCase_idem s : toLowerCase (toLowerCase s) = toLowerCase s.
Proof.
  induction s as [|c r IH]; simpl; [reflexivity|].
  now rewrite lowerChar_idem, IH.
Qed.

Lemma toLowerCase_fixed s :
  forallb isLowerBase32Char s = true -> toLowerCase s = s.
Proof.
  induction s as [|c r IH]; simpl; [reflexivity|].
  intros H. apply andb_true_iff in H as [Hc Hr].
  now rewrite (lower_fixed c Hc), (IH Hr).
Qed.

Lemma toLowerCase_base32 s :
  forallb isBase32Char s = true -> forallb isLowerBase32Char (toLowerCase s) = true.
Proof.
  induction s as [|c r IH]; simpl; [reflexivity|].
  intros H. apply andb_true_iff in H as [Hc Hr].
  now rewrite (lowerChar_base32 c Hc), (IH Hr).
Qed.

Lemma testBase32_forallb s : testBase32 s = true -> forallb isBase32Char s = true.
Proof. destruct s; simpl; [discriminate | auto]. Qed.

Lemma removeAll_toLowerCase s :
  removeAll "="%char (toLowerCase s) = toLowerCase (removeAll "="%char s).
Proof.
  induction s as [|c r IH]; simpl; [reflexivity|].
  rewrite lowerChar_padding.
  destruct (Ascii.eqb c "="%char); simpl; now rewrite IH.
Qed.

Lemma stripped_lower_alphabet s :
  forallb isCodecChar s = true ->
  forallb isLowerBase32Char (removeAll "="%char (toLowerCase s)) = true.
Proof.
  induction s as [|c r IH]; simpl; [reflexivity|].
  intros H. apply andb_true_iff in H as [Hc Hr].
  destruct (Ascii.eqb (lowerChar c) "="%char) eqn:E; simpl; [auto|].
  now rewrite (lowerChar_codec c Hc E), (IH Hr).
Qed.

(** [substring(0, n)] keeps the first [n] characters, or all of them. *)
Lemma substring_from_start n s :
  substring 0 n s = String.substring 0 n s.
Proof.
  unfold substring. rewrite Nat.min_0_l. simpl Nat.min. rewrite Nat.max_0_l, Nat.sub_0_r.
  revert n; induction s as [|c r IH]; intros [|n]; simpl; try reflexivity.
  now rewrite IH.
Qed.

Lemma substring_from_start_length n s :
  String.length (substring 0 n s) = Nat.min n (String.length s).
Proof.
  rewrite substring_from_start.
  revert n; induction s as [|c r IH]; intros [|n]; simpl; try reflexivity.
  now rewrite IH.
Qed.

Lemma substring_from_start_forallb p n s :
  forallb p s = true -> forallb p (substring 0 n s) = true.
Proof.
  rewrite substring_from_start.
  revert n; induction s as [|c r IH]; intros [|n]; simpl; try reflexivity.
  intros H. apply andb_true_iff in H as [Hc Hr].
  now rewrite Hc, (IH n Hr).
Qed.

Lemma forallb_weaken (p q : ascii -> bool) s :
  (forall c, p c = true -> q c = true) -> forallb p s = true -> forallb q s = true.
Proof.
  intros Hpq. induction s as [|c r IH]; simpl; [reflexivity|].
  intros H. apply andb_true_iff in H as [Hc Hr].
  now rewrite (Hpq c Hc), (IH Hr).
Qed.

Lemma forallb_In p s :
  forallb p s = true <-> (forall c, In c (list_ascii_of_string s) -> p c = true).
Proof.
  induction s as [|c r IH]; simpl.
  - split; [intros _ c [] | reflexivity].
  - rewrite andb_true_iff, IH. split.
    + intros [Hc Hr] d [<-|Hd]; auto.
    + intros H; split; [apply H; now left | intros d Hd; apply H; now right].
Qed.

End JsFacts.

(** * The library functions *)

Module LibraryFacts.
Import Js.

Lemma md5Hex_length s : String.length (MD5.md5Hex s) = 32.
Proof.
  unfold MD5.md5Hex, MD5.digest.
  destruct (MD5.blocks _ _ _) as [[[a b] c] d].
  assert (Hhex : forall l, String.length (MD5.hex l) = 2 * List.length l).
  { induction l as [|x l IH]; simpl; [reflexivity | rewrite IH; lia]. }
  rewrite Hhex. unfold MD5.le_bytes.
  repeat rewrite length_app. repeat rewrite length_map. reflexivity.
Qed.

Lemma symbol_base32 a b c d e : isBase32Char (Base32.symbol a b c d e) = true.
Proof. destruct a, b, c, d, e; reflexivity. Qed.

(** Induction over a list of bits five at a time, as [Base32.symbols]
    consumes it. *)
Lemma by_fives (P : list bool -> Prop) :
  P [] ->
  (forall a, P [a]) ->
  (forall a b, P [a; b]) ->
  (forall a b c, P [a; b; c]) ->
  (forall a b c d, P [a; b; c; d]) ->
  (forall a b c d e rest, P rest -> P (a :: b :: c :: d :: e :: rest)) ->
  forall bs, P bs.
Proof.
  intros H0 H1 H2 H3 H4 H5 bs.
  assert (H : forall n bs, List.length bs <= n -> P bs).
  { induction n as [|n IH]; intros l Hl.
    - destruct l; [assumption | simpl in Hl; lia].
    - destruct l as [|a [|b [|c [|d [|e rest]]]]]; auto.
      apply H5, IH. simpl in Hl. lia. }
  exact (H (List.length bs) bs (le_n _)).
Qed.

Lemma symbols_base32 bs : forallb isBase32Char (Base32.symbols bs) = true.
Proof.
  induction bs using by_fives; simpl; rewrite ?symbol_base32; auto.
Qed.

Lemma symbols_length bs : List.length bs <= 5 * String.length (Base32.symbols bs).
Proof.
  induction bs using by_fives; simpl in *; lia.
Qed.

Lemma bits_length s : List.length (Base32.bits s) = 8 * String.length s.
Proof.
  induction s as [|c r IH]; [reflexivity|].
  destruct c. simpl in *. rewrite IH. lia.
Qed.

Lemma forallb_app p s1 s2 :
  forallb p (s1 ++ s2) = forallb p s1 && forallb p s2.
Proof.
  induction s1 as [|c r IH]; simpl; [reflexivity|].
  now rewrite IH, andb_assoc.
Qed.

Lemma removeAll_app c s1 s2 :
  removeAll c (s1 ++ s2) = removeAll c s1 ++ removeAll c s2.
Proof.
  induction s1 as [|d r IH]; simpl; [reflexivity|].
  destruct (Ascii.eqb d c); simpl; now rewrite IH.
Qed.

Lemma removeAll_padding n : removeAll "="%char (Base32.padding n) = "".
Proof. induction n as [|n IH]; simpl; auto. Qed.

Lemma padding_codec n : forallb isCodecChar (Base32.padding n) = true.
Proof. induction n as [|n IH]; simpl; auto. Qed.

Lemma removeAll_base32 s :
  forallb isBase32Char s = true -> removeAll "="%char s = s.
Proof.
  induction s as [|c r IH]; simpl; [reflexivity|].
  intros H. apply andb_true_iff in H as [Hc Hr].
  assert (E : Ascii.eqb c "="%char = false) by (revert Hc; JsFacts.by_cases_on_char c).
  now rewrite E, (IH Hr).
Qed.

(** The encoder emits only symbols of the alphabet and padding. *)
Lemma encode_alphabet s : forallb isCodecChar (Base32.encode s) = true.
Proof.
  unfold Base32.encode. rewrite forallb_app, padding_codec, andb_true_r.
  apply JsFacts.forallb_weaken with (p := isBase32Char); [|apply symbols_base32].
  intros c Hc. unfold isCodecChar. now rewrite Hc.
Qed.

(** Apart from padding, the encoding is at least as long as its input. *)
Lemma encode_length s :
  String.length s <= String.length (removeAll "="%char (Base32.encode s)).
Proof.
  unfold Base32.encode.
  rewrite removeAll_app, removeAll_padding, (removeAll_base32 _ (symbols_base32 _)).
  assert (H := symbols_length (Base32.bits s)). rewrite bits_length in H.
  assert (E : forall x, x ++ "" = x) by (induction x; simpl; congruence).
  rewrite E. lia.
Qed.

End LibraryFacts.

(** * The table *)

Module StoreFacts.
Import Store.

Lemma hasId_true k r : hasId k r = true <-> id r = k.
Proof. unfold hasId. apply String.eqb_eq. Qed.

Lemma hasUrl_true u r : hasUrl u r = true <-> url r = u.
Proof. unfold hasUrl. apply String.eqb_eq. Qed.

Lemma getById_id t k r : getById t k = Some r -> id r = k.
Proof. intros H. apply find_some in H as [_ H]. now apply hasId_true. Qed.

Lemma getById_In t k r : getById t k = Some r -> In r t.
Proof. intros H. now apply find_some in H as [H _]. Qed.

Lemma getByUrl_url t u r : getByUrl t u = Some r -> url r = u.
Proof. intros H. apply find_some in H as [_ H]. now apply hasUrl_true. Qed.

Lemma find_app {A} (p : A -> bool) l1 l2 :
  find p (l1 ++ l2)%list = match find p l1 with Some x => Some x | None => find p l2 end.
Proof.
  induction l1 as [|x l1 IH]; simpl; [reflexivity|].
  destruct (p x); auto.
Qed.

Lemma getById_None_iff t k : getById t k = None <-> ~ In k (map id t).
Proof.
  unfold getById. induction t as [|r t IH]; simpl.
  - tauto.
  - destruct (hasId k r) eqn:E.
    + apply hasId_true in E. split; [discriminate | intros H; exfalso; apply H; now left].
    + assert (id r <> k) by (intros H; apply hasId_true in H; congruence). tauto.
Qed.

(** A successful insert appends one row holding the column defaults. *)
Lemma insert_Some t now k u t' :
  insert t now k u = Some t' <->
  getById t k = None /\ t' = (t ++ [mkRow k u now 0 None])%list.
Proof.
  unfold insert. destruct (getById t k); split.
  - discriminate.
  - intros [H _]; discriminate.
  - intros [= <-]; auto.
  - intros [_ ->]; reflexivity.
Qed.

Lemma insert_None t now k u :
  insert t now k u = None <-> getById t k <> None.
Proof.
  unfold insert. destruct (getById t k); split; congruence.
Qed.

Lemma getById_insert_same t now k u t' :
  insert t now k u = Some t' -> getById t' k = Some (mkRow k u now 0 None).
Proof.
  intros H. apply insert_Some in H as [Hk ->].
  unfold getById in *. rewrite find_app, Hk. simpl.
  unfold hasId; simpl. now rewrite String.eqb_refl.
Qed.

Lemma getById_insert_old t now k u t' j r :
  insert t now k u = Some t' -> getById t j = Some r -> getById t' j = Some r.
Proof.
  intros H Hj. apply insert_Some in H as [_ ->].
  unfold getById in *. now rewrite find_app, Hj.
Qed.

Lemma getByUrl_insert_old t now k u t' v r :
  insert t now k u = Some t' -> getByUrl t v = Some r -> getByUrl t' v = Some r.
Proof.
  intros H Hv. apply insert_Some in H as [_ ->].
  unfold getByUrl in *. now rewrite find_app, Hv.
Qed.

Lemma getByUrl_insert_new t now k u t' :
  insert t now k u = Some t' -> getByUrl t u = None ->
  getByUrl t' u = Some (mkRow k u now 0 None).
Proof.
  intros H Hu. apply insert_Some in H as [_ ->].
  unfold getByUrl in *. rewrite find_app, Hu. simpl.
  unfold hasUrl; simpl. now rewrite String.eqb_refl.
Qed.

Lemma getById_recordVisit t now k j :
  getById (recordVisit t now k) j =
  match getById t j with
  | Some r => Some (if hasId k r then visit now r else r)
  | None => None
  end.
Proof.
  unfold getById, recordVisit. induction t as [|r t IH]; simpl; [reflexivity|].
  assert (E : hasId j (if hasId k r then visit now r else r) = hasId j r)
    by (destruct (hasId k r); reflexivity).
  rewrite E. destruct (hasId j r); auto.
Qed.

Lemma recordVisit_absent t now k : getById t k = None -> recordVisit t now k = t.
Proof.
  unfold getById, recordVisit. induction t as [|r t IH]; simpl; [reflexivity|].
  destruct (hasId k r); [discriminate|]. intros H. now rewrite (IH H).
Qed.

Lemma getById_delete t k j :
  getById (delete t k) j = if String.eqb j k then None else getById t j.
Proof.
  unfold getById, delete. induction t as [|r t IH]; simpl.
  - now destruct (String.eqb j k).
  - destruct (hasId k r) eqn:Ek; simpl.
    + rewrite IH. destruct (String.eqb j k) eqn:Ejk; [reflexivity|].
      destruct (hasId j r) eqn:Ej; [|reflexivity].
      apply hasId_true in Ek, Ej. apply String.eqb_neq in Ejk. congruence.
    + rewrite IH. destruct (hasId j r) eqn:Ej; [|reflexivity].
      destruct (String.eqb j k) eqn:Ejk; [|reflexivity].
      apply hasId_true in Ej. apply String.eqb_eq in Ejk.
      assert (hasId k r = true) by (apply hasId_true; congruence). congruence.
Qed.

(** The three statements that change the table keep the primary key
    unique. *)
Lemma insert_keysUnique t now k u t' :
  keysUnique t -> insert t now k u = Some t' -> keysUnique t'.
Proof.
  unfold keysUnique. intros Ht H. apply insert_Some in H as [Hk ->].
  rewrite map_app. simpl. apply NoDup_app; [assumption | repeat constructor; simpl; tauto |].
  intros x Hx [<-|[]]. now apply getById_None_iff in Hk.
Qed.

Lemma recordVisit_ids t now k : map id (recordVisit t now k) = map id t.
Proof.
  unfold recordVisit. rewrite map_map. apply map_ext.
  intros r. now destruct (hasId k r).
Qed.

Lemma recordVisit_keysUnique t now k : keysUnique t -> keysUnique (recordVisit t now k).
Proof. unfold keysUnique. now rewrite recordVisit_ids. Qed.

Lemma delete_keysUnique t k : keysUnique t -> keysUnique (delete t k).
Proof.
  unfold keysUnique, delete. induction t as [|r t IH]; simpl; [auto|].
  intros H. inversion H as [|x l Hx Hl]; subst.
  destruct (hasId k r); simpl; [auto|].
  constructor; [|auto]. intros Hin. apply Hx.
  apply in_map_iff in Hin as [r' [E Hr']]. apply filter_In in Hr' as [Hr' _].
  apply in_map_iff. eauto.
Qed.

End StoreFacts.

(** * Configuration *)

Lemma defaultLength_configured : lengthConfigured defaultLength.
Proof. unfold lengthConfigured, defaultLength. lia. Qed.

Lemma lengthArgument_configured length n :
  lengthArgument length = Some n -> lengthConfigured n.
Proof.
  unfold lengthArgument, lengthConfigured.
  destruct (0 <? length)%Z eqn:E1; destruct (length <=? 20)%Z eqn:E2; try discriminate.
  intros [= <-]. apply Z.ltb_lt in E1. apply Z.leb_le in E2. lia.
Qed.

(** * The identifier allocator *)

Section Allocator.

Variable maxBase32Length : nat.
Variable md5Hex : string -> string.
Variable base32Encode : string -> string.

Local Abbreviation candidate := (candidate maxBase32Length md5Hex base32Encode).
Local Abbreviation generateFrom := (generateFrom maxBase32Length md5Hex base32Encode).

Lemma lowerBase32_spec s :
  Js.forallb Js.isLowerBase32Char s = true ->
  overAlphabet s /\ normalized s /\ unpadded s.
Proof.
  intros H. repeat split.
  - exact (JsFacts.forallb_weaken _ _ s JsFacts.lower_is_base32 H).
  - exact (JsFacts.toLowerCase_fixed s H).
  - unfold unpadded. induction s as [|c r IH]; simpl in *; [reflexivity|].
    apply andb_true_iff in H as [Hc Hr].
    now rewrite (JsFacts.lower_not_padding c Hc), (IH Hr).
Qed.

Lemma candidate_alphabet url e k :
  codecAlphabet base32Encode ->
  Js.forallb Js.isLowerBase32Char (candidate url e k) = true.
Proof.
  intros Henc. unfold candidate.
  apply JsFacts.substring_from_start_forallb, JsFacts.stripped_lower_alphabet, Henc.
Qed.

Lemma candidate_length url e k :
  lengthConfigured maxBase32Length -> hexDigest md5Hex -> codecExpands base32Encode ->
  String.length (candidate url e k) = maxBase32Length.
Proof.
  intros [_ Hmax] Hmd5 Henc. unfold candidate.
  rewrite JsFacts.substring_from_start_length, JsFacts.removeAll_toLowerCase,
    JsFacts.toLowerCase_length.
  match goal with |- context [base32Encode (md5Hex ?x)] =>
    specialize (Henc (md5Hex x)); rewrite (Hmd5 x) in Henc end.
  lia.
Qed.

(** What the loop returns is the candidate of some attempt below the
    bound which the table of that moment did not hold, every earlier
    attempt having collided. *)
Lemma generateFrom_returns remaining attempts url ent tbl id :
  snd (generateFrom remaining attempts url ent tbl) = Some id ->
  exists k, attempts <= k < attempts + remaining /\
    id = candidate url (ent k) k /\
    Store.getById (tbl k) id = None /\
    forall j, attempts <= j < k ->
      Store.getById (tbl j) (candidate url (ent j) j) <> None.
Proof.
  revert attempts. induction remaining as [|r IH]; intros a; simpl; [discriminate|].
  destruct (Store.getById (tbl a) (candidate url (ent a) a)) eqn:E.
  - destruct (generateFrom r (S a) url ent tbl) as [probed result] eqn:G. simpl.
    intros ->. specialize (IH (S a)). rewrite G in IH.
    destruct (IH eq_refl) as [k [Hk [Hid [Hfree Hbefore]]]].
    exists k. repeat split; try lia; auto.
    intros j Hj. destruct (Nat.eq_dec j a) as [->|Hne]; [congruence | apply Hbefore; lia].
  - simpl. intros [= <-]. exists a. repeat split; try lia; auto.
Qed.

(** The loop looks up the candidates of consecutive attempts and never
    more of them than it has iterations left. *)
Lemma generateFrom_probes remaining attempts url ent tbl :
  exists n, n <= remaining /\
    fst (generateFrom remaining attempts url ent tbl) =
    map (fun k => candidate url (ent k) k) (seq attempts n).
Proof.
  revert attempts. induction remaining as [|r IH]; intros a; simpl.
  - exists 0. split; [lia | reflexivity].
  - destruct (Store.getById (tbl a) (candidate url (ent a) a)).
    + destruct (IH (S a)) as [n [Hn E]].
      destruct (generateFrom r (S a) url ent tbl) as [probed result]. simpl in *.
      exists (S n). split; [lia | simpl; now rewrite E].
    + exists 1. split; [lia | reflexivity].
Qed.

(** When every candidate collides the loop runs out of attempts. *)
Lemma generateFrom_exhausted remaining attempts url ent tbl :
  (forall k, attempts <= k < attempts + remaining ->
     Store.getById (tbl k) (candidate url (ent k) k) <> None) ->
  generateFrom remaining attempts url ent tbl =
  (map (fun k => candidate url (ent k) k) (seq attempts remaining), None).
Proof.
  revert attempts. induction remaining as [|r IH]; intros a H; simpl; [reflexivity|].
  destruct (Store.getById (tbl a) (candidate url (ent a) a)) eqn:E.
  - rewrite IH; [reflexivity|]. intros k Hk. apply H. lia.
  - exfalso. apply (H a); [lia | assumption].
Qed.

End Allocator.

(** * The handlers *)

Section Handlers.

Variable maxBase32Length : nat.
Variable md5Hex : string -> string.
Variable base32Encode : string -> string.
Variable urlParses : string -> bool.

Local Abbreviation candidate := (candidate maxBase32Length md5Hex base32Encode).
Local Abbreviation generateBase32Id := (generateBase32Id maxBase32Length md5Hex base32Encode).
Local Abbreviation customKey := (customKey maxBase32Length).
Local Abbreviation addPrepare := (addPrepare maxBase32Length md5Hex base32Encode urlParses).
Local Abbreviation apiAddAmong := (apiAddAmong maxBase32Length md5Hex base32Encode urlParses).
Local Abbreviation apiAdd := (apiAdd maxBase32Length md5Hex base32Encode urlParses).
Local Abbreviation apiCheck := (apiCheck urlParses).
Local Abbreviation handle := (handle maxBase32Length md5Hex base32Encode urlParses).

(** A key that reaches the store has passed the three checks and is handed
    over in lower case. *)
Lemma customKey_ToInsert key url t id url' :
  customKey key url t = ToInsert id url' ->
  url' = url /\
  exists k, key = Js.Str k /\
    1 <= String.length k <= maxBase32Length /\
    Js.testBase32 k = true /\
    id = Js.toLowerCase k /\
    Store.getById t id = None.
Proof.
  unfold customKey. destruct key as [| |b|n|k]; try discriminate.
  destruct (Nat.eqb (String.length k) 0) eqn:E0; [discriminate|].
  destruct (Nat.ltb maxBase32Length (String.length k)) eqn:E1; [discriminate|].
  simpl. destruct (Js.testBase32 k) eqn:E2; [|discriminate]. simpl.
  destruct (Store.getById t (Js.toLowerCase k)) eqn:E3; [discriminate|].
  intros [= <- <-]. split; [reflexivity|]. exists k.
  apply Nat.eqb_neq in E0. apply Nat.ltb_ge in E1.
  repeat split; auto; lia.
Qed.

(** The two ways in which [POST /api/add] comes to insert a row. *)
Lemma addPrepare_ToInsert req ent tbl id url :
  addPrepare req ent tbl = ToInsert id url ->
  body_url req = Js.Str url /\ validUrl urlParses url /\
  ((Js.truthy (body_key req) = true /\
    customKey (body_key req) url (tbl 0) = ToInsert id url) \/
   (Js.truthy (body_key req) = false /\
    snd (generateBase32Id url ent tbl) = Some id)).
Proof.
  unfold addPrepare, validUrl.
  destruct (Js.truthy (body_url req)) eqn:Et; simpl; [|discriminate].
  destruct (body_url req) as [| |b|n|u]; try discriminate.
  assert (Hne : u <> "").
  { intros ->. discriminate. }
  destruct (urlParses u) eqn:Eu; simpl; [|discriminate].
  destruct (Js.truthy (body_key req)) eqn:Ek.
  - intros H. destruct (customKey_ToInsert _ _ _ _ _ H) as [-> _]. auto.
  - destruct (snd (generateBase32Id u ent tbl)) eqn:G; [|discriminate].
    intros [= <- <-]. auto.
Qed.

(** A custom key reaches the store over the alphabet, in lower case and
    without padding. *)
Lemma custom_key_over_alphabet key url t id url' :
  customKey key url t = ToInsert id url' ->
  overAlphabet id /\ normalized id /\ unpadded id.
Proof.
  intros H. apply customKey_ToInsert in H as [_ [k [_ [_ [Hk [-> _]]]]]].
  apply lowerBase32_spec, JsFacts.toLowerCase_base32, JsFacts.testBase32_forallb, Hk.
Qed.

(** Before its insert [POST /api/add] answers only with errors. *)
Lemma addPrepare_Answered req ent tbl r :
  addPrepare req ent tbl = Answered r -> exists status msg, r = JsonError status msg.
Proof.
  unfold addPrepare, customKey.
  repeat match goal with
         | |- context [match ?x with _ => _ end] => destruct x
         end;
    try discriminate; intros [= <-]; eauto.
Qed.

(** A created response comes from the insert of the row the handler had
    decided on. *)
Lemma apiAddAmong_Created req ent tbl t now t' asJson qr id url :
  apiAddAmong req ent tbl t now = (t', Created asJson qr id url) ->
  addPrepare req ent tbl = ToInsert id url /\
  Store.insert t now id url = Some t' /\
  qr = ("qr.local/" ++ id) /\ asJson = wantsJson req.
Proof.
  unfold apiAddAmong.
  destruct (addPrepare req ent tbl) as [r|id0 url0] eqn:P.
  - destruct (addPrepare_Answered _ _ _ _ P) as [st [msg ->]]. discriminate.
  - unfold addInsert. destruct (Store.insert t now id0 url0) eqn:I; [|discriminate].
    intros [= <- <- <- <- <-]. auto.
Qed.

(** A request without a usable key and with a destination the [URL]
    constructor accepts goes to the allocator. *)
Lemma addPrepare_keyless req url ent tbl :
  body_url req = Js.Str url -> validUrl urlParses url ->
  Js.truthy (body_key req) = false ->
  addPrepare req ent tbl =
  match snd (generateBase32Id url ent tbl) with
  | Some id => ToInsert id url
  | None => Answered (JsonError 500 "Unable to generate unique ID")
  end.
Proof.
  intros Hu [Hne Hp] Hk. unfold addPrepare. rewrite Hu, Hk. simpl.
  rewrite Hp. simpl.
  apply String.eqb_neq in Hne. now rewrite Hne.
Qed.

(** C4.  A generated identifier has exactly the configured length: the
    identifier [generateBase32Id] returns has [maxBase32Length] characters,
    and so has the identifier of every created response to an add request
    without a usable key, which therefore lies between 1 and
    [maxBase32Length].  The configured length is between 1 and 20, the
    digest has 32 hexadecimal characters and the encoder spends at least
    one character per input byte. *)
Theorem C4_generated_length_exact :
  lengthConfigured maxBase32Length -> hexDigest md5Hex -> codecExpands base32Encode ->
  (forall url ent tbl id,
     snd (generateBase32Id url ent tbl) = Some id ->
     String.length id = maxBase32Length) /\
  (forall req ent tbl t now t' asJson qr id url,
     Js.truthy (body_key req) = false ->
     apiAddAmong req ent tbl t now = (t', Created asJson qr id url) ->
     String.length id = maxBase32Length /\
     1 <= String.length id <= maxBase32Length).
Proof.
  intros Hmax Hmd5 Henc.
  assert (G : forall url ent tbl id,
             snd (generateBase32Id url ent tbl) = Some id ->
             String.length id = maxBase32Length).
  { intros url ent tbl id H. apply generateFrom_returns in H as [k [_ [-> _]]].
    now apply candidate_length. }
  split; [exact G|].
  intros req ent tbl t now t' asJson qr id url Hk H.
  apply apiAddAmong_Created in H as [P _].
  apply addPrepare_ToInsert in P as [_ [_ [[Hk' _]|[_ P]]]]; [congruence|].
  apply G in P. destruct Hmax. lia.
Qed.

(** C5.  The allocator makes at most [maxAttempts] = 10 lookups and always
    returns; when the candidate of each of the ten attempts is taken it
    gives up after exactly those ten, and the add request without a usable
    key is answered with 500 'Unable to generate unique ID' and leaves the
    table as it is.  In particular this is the outcome when the length is
    1 and all identifiers of one character are taken. *)
Theorem C5_allocation_bounded :
  (forall url ent tbl,
     List.length (fst (generateBase32Id url ent tbl)) <= maxAttempts) /\
  (forall url ent tbl,
     (forall k, k < maxAttempts ->
        Store.getById (tbl k) (candidate url (ent k) k) <> None) ->
     generateBase32Id url ent tbl =
       (map (fun k => candidate url (ent k) k) (seq 0 maxAttempts), None) /\
     forall req t now,
       body_url req = Js.Str url -> validUrl urlParses url ->
       Js.truthy (body_key req) = false ->
       apiAddAmong req ent tbl t now = (t, JsonError 500 "Unable to generate unique ID") /\
       AllocationExhausted (snd (apiAddAmong req ent tbl t now))) /\
  (forall req url ent t now,
     maxBase32Length = 1 -> hexDigest md5Hex ->
     codecAlphabet base32Encode -> codecExpands base32Encode ->
     singleCharactersTaken t ->
     body_url req = Js.Str url -> validUrl urlParses url ->
     Js.truthy (body_key req) = false ->
     apiAdd t now ent req = (t, JsonError 500 "Unable to generate unique ID")).
Proof.
  assert (X : forall url ent tbl,
     (forall k, k < maxAttempts ->
        Store.getById (tbl k) (candidate url (ent k) k) <> None) ->
     generateBase32Id url ent tbl =
       (map (fun k => candidate url (ent k) k) (seq 0 maxAttempts), None) /\
     forall req t now,
       body_url req = Js.Str url -> validUrl urlParses url ->
       Js.truthy (body_key req) = false ->
       apiAddAmong req ent tbl t now = (t, JsonError 500 "Unable to generate unique ID")).
  { intros url ent tbl H.
    assert (G : generateBase32Id url ent tbl =
       (map (fun k => candidate url (ent k) k) (seq 0 maxAttempts), None)).
    { apply generateFrom_exhausted. intros k Hk. apply H. lia. }
    split; [exact G|]. intros req t now Hu Hp Hk.
    unfold apiAddAmong. rewrite (addPrepare_keyless _ _ _ _ Hu Hp Hk), G.
    reflexivity. }
  split; [|split].
  - intros url ent tbl.
    destruct (generateFrom_probes maxBase32Length md5Hex base32Encode
                maxAttempts 0 url ent tbl) as [n [Hn E]].
    unfold generateBase32Id. rewrite E, length_map, length_seq. exact Hn.
  - intros url ent tbl H. destruct (X url ent tbl H) as [G A].
    split; [exact G|]. intros req t now Hu Hp Hk.
    rewrite (A req t now Hu Hp Hk). split; reflexivity.
  - intros req url ent t now Hone Hmd5 Halpha Hexp Hfull Hu Hp Hk.
    apply (X url ent (fun _ => t)); auto.
    intros k _.
    assert (L : String.length (candidate url (ent k) k) = 1).
    { rewrite candidate_length; auto. unfold lengthConfigured. lia. }
    assert (A := candidate_alphabet maxBase32Length md5Hex base32Encode url (ent k) k Halpha).
    destruct (candidate url (ent k) k) as [|c [|d r]]; try discriminate.
    apply Hfull. simpl in A. now rewrite andb_true_r in A.
Qed.

(** An insert leaves the rows already present where a lookup by
    identifier finds them. *)
Lemma addInsert_keeps t now asJson id url j r :
  Store.getById t j = Some r ->
  Store.getById (fst (addInsert t now asJson id url)) j = Some r.
Proof.
  intros H. unfold addInsert.
  destruct (Store.insert t now id url) as [t'|] eqn:I; simpl; [|assumption].
  eapply StoreFacts.getById_insert_old; eauto.
Qed.

Lemma apiAddAmong_keeps req ent tbl t now j r :
  Store.getById t j = Some r ->
  Store.getById (fst (apiAddAmong req ent tbl t now)) j = Some r.
Proof.
  intros H. unfold apiAddAmong.
  destruct (addPrepare req ent tbl); [assumption | now apply addInsert_keeps].
Qed.

Lemma visits_recordVisit t now k j r r' :
  Store.getById t j = Some r ->
  Store.getById (Store.recordVisit t now k) j = Some r' ->
  (Store.visits r <= Store.visits r')%N.
Proof.
  intros H. rewrite StoreFacts.getById_recordVisit, H. intros [= <-].
  destruct (Store.hasId k r); simpl; lia.
Qed.

Lemma visits_delete t k j r r' :
  Store.getById t j = Some r ->
  Store.getById (Store.delete t k) j = Some r' ->
  (Store.visits r <= Store.visits r')%N.
Proof.
  intros H. rewrite StoreFacts.getById_delete.
  destruct (String.eqb j k); [discriminate|]. rewrite H. intros [= <-]. lia.
Qed.

(** C6.  The visit counter of a record starts at 0 and never decreases; one
    resolution of an existing identifier adds exactly 1 to it and sets the
    time of the last visit, and the resolution of an identifier that is not
    in the table changes nothing and answers 404.  In order: the row an
    insert creates, and so the row behind every created response, has
    [visits = 0] and no last visit; no request, and none of the three
    statements that write to the table, lowers the counter of a record that
    is still there afterwards; a hit redirects to the destination, replaces
    the record by the same record with [visits + 1] and the current time,
    and leaves every other identifier as it was, also when the queued
    update runs against a later table; a miss returns the table as it
    is. *)
Theorem C6_visit_counter :
  (forall t now k u t',
     Store.insert t now k u = Some t' ->
     Store.getById t' k = Some (Store.mkRow k u now 0 None)) /\
  (forall req ent tbl t now t' asJson qr id url,
     apiAddAmong req ent tbl t now = (t', Created asJson qr id url) ->
     exists r, Store.getById t' id = Some r /\
       Store.visits r = 0%N /\ Store.last_visit r = None) /\
  (forall t q j r r',
     Store.getById t j = Some r ->
     Store.getById (fst (handle t q)) j = Some r' ->
     (Store.visits r <= Store.visits r')%N) /\
  (forall t j r r',
     Store.getById t j = Some r ->
     (forall now k u t', Store.insert t now k u = Some t' ->
        Store.getById t' j = Some r' -> (Store.visits r <= Store.visits r')%N) /\
     (forall now k, Store.getById (Store.recordVisit t now k) j = Some r' ->
        (Store.visits r <= Store.visits r')%N) /\
     (forall k, Store.getById (Store.delete t k) j = Some r' ->
        (Store.visits r <= Store.visits r')%N)) /\
  (forall t now base32id r,
     Store.getById t (Js.toLowerCase base32id) = Some r ->
     snd (apiResolve t now base32id) = Redirect (Store.url r) /\
     Store.getById (fst (apiResolve t now base32id)) (Js.toLowerCase base32id)
       = Some (Store.visit now r) /\
     Store.visits (Store.visit now r) = (Store.visits r + 1)%N /\
     Store.last_visit (Store.visit now r) = Some now /\
     forall j, j <> Js.toLowerCase base32id ->
       Store.getById (fst (apiResolve t now base32id)) j = Store.getById t j) /\
  (forall t base32id r later now r2,
     Store.getById t (Js.toLowerCase base32id) = Some r ->
     resolveLookup t base32id = (Redirect (Store.url r), Some (Js.toLowerCase base32id)) /\
     (Store.getById later (Js.toLowerCase base32id) = Some r2 ->
      Store.getById (Store.recordVisit later now (Js.toLowerCase base32id))
        (Js.toLowerCase base32id) = Some (Store.visit now r2))) /\
  (forall t now base32id,
     Store.getById t (Js.toLowerCase base32id) = None ->
     apiResolve t now base32id = (t, Send 404 "Redirect not found") /\
     NotFound (snd (apiResolve t now base32id))).
Proof.
  split; [|split; [|split; [|split; [|split; [|split]]]]].
  - intros t now k u t' H. eapply StoreFacts.getById_insert_same; eauto.
  - intros req ent tbl t now t' asJson qr id url H.
    apply apiAddAmong_Created in H as [_ [I _]].
    eexists. split; [eapply StoreFacts.getById_insert_same; eauto | auto].
  - intros t [now ent req|now raw|url|id] j r r' Hr; simpl.
    + unfold apiAdd. rewrite (apiAddAmong_keeps _ _ _ _ _ _ _ Hr).
      intros [= <-]. lia.
    + unfold apiResolve, resolveLookup.
      destruct (Store.getById t (Js.toLowerCase raw)); simpl.
      * now apply visits_recordVisit.
      * rewrite Hr. intros [= <-]. lia.
    + rewrite Hr. intros [= <-]. lia.
    + unfold apiDelete. destruct (String.eqb id ""); simpl.
      * rewrite Hr. intros [= <-]. lia.
      * destruct (Store.getById t (Js.toLowerCase id)); simpl.
        -- now apply visits_delete.
        -- rewrite Hr. intros [= <-]. lia.
  - intros t j r r' Hr. split; [|split].
    + intros now k u t' I. rewrite (StoreFacts.getById_insert_old _ _ _ _ _ _ _ I Hr).
      intros [= <-]. lia.
    + intros now k. now apply visits_recordVisit.
    + intros k. now apply visits_delete.
  - intros t now raw r Hr. unfold apiResolve, resolveLookup. rewrite Hr. simpl.
    split; [reflexivity|]. split; [|split; [reflexivity|split; [reflexivity|]]].
    + rewrite StoreFacts.getById_recordVisit, Hr.
      rewrite (proj2 (StoreFacts.hasId_true _ _) (StoreFacts.getById_id _ _ _ Hr)).
      reflexivity.
    + intros j Hj. rewrite StoreFacts.getById_recordVisit.
      destruct (Store.getById t j) as [r1|] eqn:Ej; [|reflexivity].
      destruct (Store.hasId (Js.toLowerCase raw) r1) eqn:E; [|reflexivity].
      apply StoreFacts.hasId_true in E. apply StoreFacts.getById_id in Ej. congruence.
  - intros t raw r later now r2 Hr. unfold resolveLookup. rewrite Hr.
    split; [reflexivity|]. intros H2.
    rewrite StoreFacts.getById_recordVisit, H2.
    now rewrite (proj2 (StoreFacts.hasId_true _ _) (StoreFacts.getById_id _ _ _ H2)).
  - intros t now raw H. unfold apiResolve, resolveLookup. rewrite H. simpl.
    split; [reflexivity | left; reflexivity].
Qed.

(** C7.  Identifiers are case-insensitive at the boundary: when an add
    request with a non-empty custom key is answered with a created
    response, the identifier stored and returned is the key in lower case,
    and resolving any string whose lower-case form is that of the key
    redirects to the destination of that record. *)
Theorem C7_case_insensitive t now ent url key acc t' asJson qr id url' :
  key <> "" ->
  apiAdd t now ent (mkAdd (Js.Str url) (Js.Str key) acc) = (t', Created asJson qr id url') ->
  id = Js.toLowerCase key /\ url' = url /\
  Store.getById t' (Js.toLowerCase key) = Some (Store.mkRow (Js.toLowerCase key) url now 0 None) /\
  forall base32id now',
    Js.toLowerCase base32id = Js.toLowerCase key ->
    resolveLookup t' base32id = (Redirect url, Some (Js.toLowerCase key)) /\
    snd (apiResolve t' now' base32id) = Redirect url.
Proof.
  intros Hne H. apply apiAddAmong_Created in H as [P [I _]].
  apply addPrepare_ToInsert in P as [Hu [_ [[_ P]|[Hk _]]]].
  - simpl in Hu. injection Hu as <-. cbn [body_key] in P.
    apply customKey_ToInsert in P as [_ [k [[= <-] [_ [_ [-> _]]]]]].
    assert (G := StoreFacts.getById_insert_same _ _ _ _ _ I).
    repeat split; auto.
    + unfold resolveLookup. rewrite H, G. reflexivity.
    + unfold apiResolve, resolveLookup. rewrite H, G. reflexivity.
  - simpl in Hk. apply String.eqb_neq in Hne. rewrite Hne in Hk. discriminate.
Qed.

(** C8, as the handlers have it.  After a created response to an add
    request for a destination, a check of that destination reports that it
    exists and echoes the destination; the identifier and the other fields
    it reports are those of the new record when no record had that
    destination before the add, and otherwise those of the first record
    that had it. *)
Theorem C8_check_after_add t now ent req t' asJson qr id url :
  apiAdd t now ent req = (t', Created asJson qr id url) ->
  (Store.getByUrl t url = None ->
   apiCheck t' (Js.Str url) = CheckFound qr id url now 0 None) /\
  (forall r, Store.getByUrl t url = Some r ->
   apiCheck t' (Js.Str url) =
     CheckFound ("qr.local/" ++ Store.id r) (Store.id r) url
       (Store.created r) (Store.visits r) (Store.last_visit r)) /\
  (exists qr' id' created visits last,
     apiCheck t' (Js.Str url) = CheckFound qr' id' url created visits last).
Proof.
  intros H. apply apiAddAmong_Created in H as [P [I [-> _]]].
  apply addPrepare_ToInsert in P as [_ [[Hne Hp] _]].
  assert (C : apiCheck t' (Js.Str url) =
              match Store.getByUrl t' url with
              | Some row =>
                  CheckFound ("qr.local/" ++ Store.id row) (Store.id row) (Store.url row)
                    (Store.created row) (Store.visits row) (Store.last_visit row)
              | None => CheckAbsent
              end).
  { unfold apiCheck. simpl. apply String.eqb_neq in Hne.
    now rewrite Hne, Hp. }
  assert (New : Store.getByUrl t url = None ->
                apiCheck t' (Js.Str url) = CheckFound ("qr.local/" ++ id) id url now 0 None).
  { intros N. now rewrite C, (StoreFacts.getByUrl_insert_new _ _ _ _ _ I N). }
  assert (Old : forall r, Store.getByUrl t url = Some r ->
                apiCheck t' (Js.Str url) =
                CheckFound ("qr.local/" ++ Store.id r) (Store.id r) url
                  (Store.created r) (Store.visits r) (Store.last_visit r)).
  { intros r Hr. rewrite C, (StoreFacts.getByUrl_insert_old _ _ _ _ _ _ _ I Hr).
    now rewrite (StoreFacts.getByUrl_url _ _ _ Hr). }
  split; [exact New|]. split; [exact Old|].
  destruct (Store.getByUrl t url) as [r|] eqn:E.
  - rewrite (Old r eq_refl). eauto 6.
  - rewrite (New eq_refl). eauto 6.
Qed.

Lemma not_InvalidKeyFormat_other status msg :
  String.prefix "Custom key must " msg = false -> ~ InvalidKeyFormat (JsonError status msg).
Proof. intros H [m [[= _ <-] P]]. congruence. Qed.

Lemma addPrepare_falsy_Answered req ent tbl r :
  Js.truthy (body_key req) = false ->
  addPrepare req ent tbl = Answered r ->
  r = JsonError 400 "URL is required" \/
  r = JsonError 400 "Invalid URL format" \/
  r = JsonError 500 "Unable to generate unique ID".
Proof.
  intros Hk. unfold addPrepare. rewrite Hk.
  destruct (negb (Js.truthy (body_url req))); [intros [= <-]; auto|].
  destruct (body_url req) as [| |b|n|u]; try (intros [= <-]; auto).
  destruct (negb (urlParses u)); [intros [= <-]; auto|].
  destruct (snd _); [discriminate | intros [= <-]; auto].
Qed.

(** The loop settles on the candidate of the first attempt that finds it
    free. *)
Lemma allocator_settles remaining attempts url ent tbl k :
  attempts <= k < attempts + remaining ->
  Store.getById (tbl k) (candidate url (ent k) k) = None ->
  (forall j, attempts <= j < k ->
     Store.getById (tbl j) (candidate url (ent j) j) <> None) ->
  snd (generateFrom maxBase32Length md5Hex base32Encode remaining attempts url ent tbl) =
  Some (candidate url (ent k) k).
Proof.
  revert attempts. induction remaining as [|n IH]; intros a Hk Hfree Hbusy; [lia|].
  simpl. destruct (Nat.eq_dec a k) as [->|Hne].
  - now rewrite Hfree.
  - destruct (Store.getById (tbl a) (candidate url (ent a) a)) eqn:E.
    + specialize (IH (S a)).
      destruct (generateFrom maxBase32Length md5Hex base32Encode n (S a) url ent tbl)
        as [probed result].
      simpl in *. apply IH; [lia | assumption | intros j Hj; apply Hbusy; lia].
    + exfalso. apply (Hbusy a); [lia | assumption].
Qed.

(** C9.  A key that is the empty string, or falsy in any other way, is not
    validated: the request is handled as the same request without a key
    and is never answered with a key-format error.  With a valid
    destination an identifier is generated for it: its outcome is the
    allocator's; when one of the ten attempts finds its candidate free,
    the request is answered with a created response under the candidate of
    the first such attempt, the digest of destination, time, random value
    and attempt index, encoded, lower-cased and cut to length, and a
    record under that identifier is appended to a table that did not hold
    it; and a created response always carries a generated identifier which
    the table did not hold. *)
Theorem C9_falsy_key_not_validated req ent tbl t now :
  Js.truthy (body_key req) = false ->
  addPrepare req ent tbl =
    addPrepare (mkAdd (body_url req) Js.Undefined (accept req)) ent tbl /\
  apiAddAmong req ent tbl t now =
    apiAddAmong (mkAdd (body_url req) Js.Undefined (accept req)) ent tbl t now /\
  ~ InvalidKeyFormat (snd (apiAddAmong req ent tbl t now)) /\
  (forall url, body_url req = Js.Str url -> validUrl urlParses url ->
     addPrepare req ent tbl =
     match snd (generateBase32Id url ent tbl) with
     | Some id => ToInsert id url
     | None => Answered (JsonError 500 "Unable to generate unique ID")
     end) /\
  (forall t' asJson qr id url,
     apiAddAmong req ent tbl t now = (t', Created asJson qr id url) ->
     snd (generateBase32Id url ent tbl) = Some id /\ Store.getById t id = None) /\
  (forall url k,
     body_url req = Js.Str url -> validUrl urlParses url ->
     k < maxAttempts ->
     Store.getById (tbl k) (candidate url (ent k) k) = None ->
     (forall j, j < k -> Store.getById (tbl j) (candidate url (ent j) j) <> None) ->
     Store.getById t (candidate url (ent k) k) = None ->
     apiAddAmong req ent tbl t now =
       ((t ++ [Store.mkRow (candidate url (ent k) k) url now 0 None])%list,
        Created (wantsJson req) ("qr.local/" ++ candidate url (ent k) k)
          (candidate url (ent k) k) url)).
Proof.
  intros Hk.
  assert (E : addPrepare req ent tbl =
              addPrepare (mkAdd (body_url req) Js.Undefined (accept req)) ent tbl).
  { unfold addPrepare. simpl. now rewrite Hk. }
  split; [exact E|]. split; [|split; [|split; [|split]]].
  - unfold apiAddAmong. now rewrite <- E.
  - unfold apiAddAmong. destruct (addPrepare req ent tbl) as [r|id url] eqn:P.
    + destruct (addPrepare_falsy_Answered _ _ _ _ Hk P) as [-> | [-> | ->]];
        now apply not_InvalidKeyFormat_other.
    + unfold addInsert. destruct (Store.insert t now id url); simpl.
      * intros [m [[=] _]].
      * now apply not_InvalidKeyFormat_other.
  - intros url Hu Hv. now apply addPrepare_keyless.
  - intros t' asJson qr id url H. apply apiAddAmong_Created in H as [P [I _]].
    apply addPrepare_ToInsert in P as [_ [_ [[Hk' _]|[_ G]]]]; [congruence|].
    split; [exact G|]. now apply StoreFacts.insert_Some in I as [I _].
  - intros url k Hu Hv Hlt Hfree Hbusy Hins.
    assert (G : snd (generateBase32Id url ent tbl) = Some (candidate url (ent k) k)).
    { unfold generateBase32Id. apply allocator_settles; [lia | assumption|].
      intros j Hj. apply Hbusy. lia. }
    unfold apiAddAmong. rewrite (addPrepare_keyless _ _ _ _ Hu Hv Hk), G.
    unfold addInsert, Store.insert. now rewrite Hins.
Qed.

(** Whether an identifier is free is a matter of the [id] column alone. *)
Lemma getById_decides {A} t k (a : Store.Row -> A) (b : A) c :
  (forall r, a r = c) ->
  match Store.getById t k with Some r => a r | None => b end =
  if existsb (fun i => String.eqb i k) (map Store.id t) then c else b.
Proof.
  intros Ha. unfold Store.getById. induction t as [|r t IH]; simpl; [reflexivity|].
  unfold Store.hasId at 1. destruct (String.eqb (Store.id r) k); simpl; auto.
Qed.

Lemma generateFrom_ignores_columns remaining attempts url ent tbl tbl' :
  (forall k, map Store.id (tbl k) = map Store.id (tbl' k)) ->
  generateFrom maxBase32Length md5Hex base32Encode remaining attempts url ent tbl =
  generateFrom maxBase32Length md5Hex base32Encode remaining attempts url ent tbl'.
Proof.
  intros H. revert attempts. induction remaining as [|n IH]; intros a; simpl; [reflexivity|].
  rewrite <- IH.
  set (rest := generateFrom maxBase32Length md5Hex base32Encode n (S a) url ent tbl).
  set (c := candidate url (ent a) a).
  rewrite (getById_decides (tbl a) c (fun _ => let (probed, result) := rest in (c :: probed, result))
             _ (let (probed, result) := rest in (c :: probed, result)) (fun _ => eq_refl)).
  rewrite (getById_decides (tbl' a) c (fun _ => let (probed, result) := rest in (c :: probed, result))
             _ (let (probed, result) := rest in (c :: probed, result)) (fun _ => eq_refl)).
  now rewrite H.
Qed.

(** C10.  Adding never looks at the destinations already stored.  What
    [POST /api/add] decides before its insert is the same for any two
    histories of the table that agree on the identifiers present; and an
    add request without a usable key for which the allocator finds a free
    candidate appends a record under that identifier, whatever records
    already hold the destination: they all remain, under identifiers
    different from the new one. *)
Theorem C10_add_ignores_destinations :
  (forall req ent tbl tbl',
     (forall k, map Store.id (tbl k) = map Store.id (tbl' k)) ->
     addPrepare req ent tbl = addPrepare req ent tbl') /\
  (forall t now ent req url id,
     body_url req = Js.Str url -> validUrl urlParses url ->
     Js.truthy (body_key req) = false ->
     snd (generateBase32Id url ent (fun _ => t)) = Some id ->
     apiAdd t now ent req =
       ((t ++ [Store.mkRow id url now 0 None])%list,
        Created (wantsJson req) ("qr.local/" ++ id) id url) /\
     Store.getById t id = None /\
     forall r, In r t -> Store.url r = url ->
       In r (fst (apiAdd t now ent req)) /\ Store.id r <> id).
Proof.
  split.
  - intros req ent tbl tbl' H. unfold addPrepare.
    destruct (negb (Js.truthy (body_url req))); [reflexivity|].
    destruct (body_url req) as [| |b|n|u]; try reflexivity.
    destruct (negb (urlParses u)); [reflexivity|].
    destruct (Js.truthy (body_key req)).
    + unfold customKey. destruct (body_key req) as [| |b|n|k]; try reflexivity.
      destruct (_ || _); [reflexivity|]. destruct (negb _); [reflexivity|].
      rewrite (getById_decides (tbl 0) _ (fun _ => _) _ _ (fun _ => eq_refl)).
      rewrite (getById_decides (tbl' 0) _ (fun _ => _) _ _ (fun _ => eq_refl)).
      now rewrite H.
    + unfold generateBase32Id.
      now rewrite (generateFrom_ignores_columns _ _ _ _ _ _ H).
  - intros t now ent req url id Hu Hv Hk G.
    assert (F : Store.getById t id = None).
    { apply generateFrom_returns in G as [k [_ [_ [F _]]]]. exact F. }
    assert (A : apiAdd t now ent req =
       ((t ++ [Store.mkRow id url now 0 None])%list,
        Created (wantsJson req) ("qr.local/" ++ id) id url)).
    { unfold apiAdd, apiAddAmong.
      rewrite (addPrepare_keyless _ _ _ _ Hu Hv Hk), G.
      unfold addInsert, Store.insert. now rewrite F. }
    split; [exact A|]. split; [exact F|].
    intros r Hr _. rewrite A. simpl. split.
    + apply in_or_app. now left.
    + intros E. apply StoreFacts.getById_None_iff in F. apply F.
      rewrite <- E. now apply in_map.
Qed.

(** No request breaks the primary key, nor does the insert of an add
    request that runs after other requests. *)
Lemma apiAddAmong_keysUnique req ent tbl t now :
  Store.keysUnique t -> Store.keysUnique (fst (apiAddAmong req ent tbl t now)).
Proof.
  intros H. unfold apiAddAmong. destruct (addPrepare req ent tbl); [assumption|].
  unfold addInsert. destruct (Store.insert t now id url) eqn:I; [|assumption].
  simpl. eapply StoreFacts.insert_keysUnique; eauto.
Qed.

Lemma handle_keysUnique t q :
  Store.keysUnique t -> Store.keysUnique (fst (handle t q)).
Proof.
  intros H. destruct q as [now ent req|now raw|url|id]; simpl.
  - now apply apiAddAmong_keysUnique.
  - unfold apiResolve, resolveLookup.
    destruct (Store.getById t (Js.toLowerCase raw)); simpl;
      [now apply StoreFacts.recordVisit_keysUnique | assumption].
  - assumption.
  - unfold apiDelete. destruct (String.eqb id ""); [assumption|].
    destruct (Store.getById t (Js.toLowerCase id)); simpl;
      [now apply StoreFacts.delete_keysUnique | assumption].
Qed.

(** C2, as the handlers have it.  When the insert of an add request
    without a usable key meets a table that by then holds the generated
    identifier, the store refuses it and the request ends there: it is
    answered with 500 'Database error', nothing is inserted, and the
    allocator is not entered again. *)
Theorem C2_duplicate_at_insert_ends_request req ent tbl t now id url :
  Js.truthy (body_key req) = false ->
  addPrepare req ent tbl = ToInsert id url ->
  Store.getById t id <> None ->
  Store.insert t now id url = None /\
  apiAddAmong req ent tbl t now = (t, JsonError 500 "Database error") /\
  StoreFailure (snd (apiAddAmong req ent tbl t now)).
Proof.
  intros _ P Hdup. apply (proj2 (StoreFacts.insert_None t now id url)) in Hdup.
  unfold apiAddAmong, addInsert. rewrite P, Hdup. repeat split.
Qed.

Lemma keyError_kind rule : InvalidKeyFormat (keyError maxBase32Length rule).
Proof. destruct rule; eexists; split; reflexivity. Qed.

(** The custom-key branch decides by the first rule broken. *)
Lemma customKey_by_rules key url t :
  Js.truthy key = true ->
  customKey key url t =
  match firstFailure maxBase32Length key with
  | Some rule => Answered (keyError maxBase32Length rule)
  | None =>
      match key with
      | Js.Str k =>
          match Store.getById t (Js.toLowerCase k) with
          | Some _ => Answered (JsonError 409 "Custom key already exists. Choose a different key.")
          | None => ToInsert (Js.toLowerCase k) url
          end
      | _ => Answered (keyError maxBase32Length NonEmptyString)
      end
  end.
Proof.
  destruct key as [| |b|n|[|c k]]; try reflexivity; try discriminate.
  intros _. unfold customKey, firstFailure, ruleHolds.
  change (String.eqb (String c k) "") with false.
  change (Nat.eqb (String.length (String c k)) 0) with false.
  change (Nat.leb 1 (String.length (String c k))) with true.
  change (Js.testBase32 (String c k)) with (Js.forallb Js.isBase32Char (String c k)).
  rewrite Nat.ltb_antisym. cbn [negb orb andb].
  destruct (Nat.leb (String.length (String c k)) maxBase32Length); cbn [negb]; [|reflexivity].
  destruct (Js.forallb Js.isBase32Char (String c k)); reflexivity.
Qed.

(** C3, as the handlers have it.  For an add request with a valid
    destination and a truthy key the three rules are checked in order and
    the first one broken decides the answer, which is a key-format error
    given without regard to the table: the length message for a key that
    is not a string or is longer than [maxBase32Length], the alphabet
    message for a string within the length holding a character outside
    [[A-Z2-7]].  A key that passes all three is looked up in lower case
    and, when free, handed on in lower case. *)
Theorem C3_truthy_key_validated req url :
  body_url req = Js.Str url -> validUrl urlParses url ->
  Js.truthy (body_key req) = true ->
  (forall rule,
     firstFailure maxBase32Length (body_key req) = Some rule ->
     InvalidKeyFormat (keyError maxBase32Length rule) /\
     forall ent tbl, addPrepare req ent tbl = Answered (keyError maxBase32Length rule)) /\
  (firstFailure maxBase32Length (body_key req) = None ->
   exists k, body_key req = Js.Str k /\
     forall ent tbl,
       addPrepare req ent tbl =
       match Store.getById (tbl 0) (Js.toLowerCase k) with
       | Some _ => Answered (JsonError 409 "Custom key already exists. Choose a different key.")
       | None => ToInsert (Js.toLowerCase k) url
       end).
Proof.
  intros Hu [Hne Hp] Hk.
  assert (P : forall ent tbl,
             addPrepare req ent tbl = customKey (body_key req) url (tbl 0)).
  { intros ent tbl. unfold addPrepare. rewrite Hu, Hk, Hp. simpl.
    apply String.eqb_neq in Hne. now rewrite Hne. }
  split.
  - intros rule F. split; [apply keyError_kind|].
    intros ent tbl. now rewrite P, (customKey_by_rules _ _ _ Hk), F.
  - intros F. destruct (body_key req) as [| |b|n|k] eqn:E; try discriminate.
    exists k. split; [reflexivity|]. intros ent tbl.
    now rewrite P, (customKey_by_rules _ _ _ Hk), F.
Qed.

End Handlers.

(** * The properties on sample runs *)

Lemma sample_url_valid : validUrl SampleUrl.urlParses Sample.exampleUrl.
Proof. split; [discriminate | reflexivity]. Qed.

Lemma sample_full : singleCharactersTaken Sample.full.
Proof.
  intros c. JsFacts.by_cases_on_char c.
Qed.

Lemma sample_crowded k :
  k < maxAttempts ->
  Store.getById Sample.crowded
    (candidate 1 MD5.md5Hex Base32.encode Sample.exampleUrl (Sample.entropy k) k) <> None.
Proof.
  intros Hk. unfold maxAttempts in Hk.
  do 10 (destruct k as [|k]; [vm_compute; discriminate|]). lia.
Qed.

(** C1.  The claim holds of custom keys and fails of generated
    identifiers: the package's encoder writes over the digits and the
    letters without i, l, o and s.  On an empty table, with the default
    length, the add request for the sample destination is given the
    identifier [71gp8dt]; its characters 1 and 8 do not match [[A-Z2-7]],
    and the same handler refuses that very string as a custom key for
    holding characters outside the base 32 alphabet. *)
Theorem C1_generated_id_outside_alphabet :
  Program.generate 7 Sample.exampleUrl Sample.entropy (fun _ => []) =
    (["71gp8dt"], Some "71gp8dt") /\
  Program.add 7 [] Sample.clock Sample.entropy (Sample.keyless Sample.exampleUrl) =
    ([Program.first], Created false "qr.local/71gp8dt" "71gp8dt" Sample.exampleUrl) /\
  ~ overAlphabet "71gp8dt" /\
  (forall ent tbl,
     Program.prepare 7 (Sample.keyed Sample.exampleUrl "71gp8dt") ent tbl =
     Answered (JsonError 400 "Custom key must contain only base32 characters (A-Z, 2-7)")).
Proof.
  split; [vm_compute; reflexivity|]. split; [vm_compute; reflexivity|]. split.
  - unfold overAlphabet. vm_compute. discriminate.
  - intros ent tbl. reflexivity.
Qed.

(** With length 12 the generated identifier has 12 characters. *)
Lemma C4_witness :
  lengthConfigured 12 /\ hexDigest MD5.md5Hex /\ codecExpands Base32.encode /\
  snd (generateBase32Id 12 MD5.md5Hex Base32.encode Sample.exampleUrl Sample.entropy
         (fun _ => [])) = Some "hbqwinzymm4d" /\
  String.length "hbqwinzymm4d" = 12.
Proof.
  assert (L : lengthConfigured 12) by exact (lengthArgument_configured 12 12 eq_refl).
  assert (G : snd (generateBase32Id 12 MD5.md5Hex Base32.encode Sample.exampleUrl
                     Sample.entropy (fun _ => [])) = Some "hbqwinzymm4d")
    by (vm_compute; reflexivity).
  split; [exact L|]. split; [exact LibraryFacts.md5Hex_length|].
  split; [exact LibraryFacts.encode_length|]. split; [exact G|].
  exact (proj1 (C4_generated_length_exact 12 MD5.md5Hex Base32.encode SampleUrl.urlParses
                  L LibraryFacts.md5Hex_length LibraryFacts.encode_length) _ _ _ _ G).
Defined.

(** With length 1 and the identifiers [g], [h] and [m] taken, all ten
    candidates collide and the request fails; so it does when every
    identifier of one character is taken. *)
Lemma C5_witness :
  (forall k, k < maxAttempts ->
     Store.getById Sample.crowded
       (candidate 1 MD5.md5Hex Base32.encode Sample.exampleUrl (Sample.entropy k) k) <> None) /\
  Sample.addAmong 1 (Sample.keyless Sample.exampleUrl) Sample.entropy
    (fun _ => Sample.crowded) Sample.crowded Sample.clock =
  (Sample.crowded, JsonError 500 "Unable to generate unique ID") /\
  singleCharactersTaken Sample.full /\
  Sample.add 1 Sample.full Sample.clock Sample.entropy (Sample.keyless Sample.exampleUrl) =
  (Sample.full, JsonError 500 "Unable to generate unique ID").
Proof.
  destruct (C5_allocation_bounded 1 MD5.md5Hex Base32.encode SampleUrl.urlParses)
    as [_ [Collide Full]].
  split; [exact sample_crowded|]. split; [|split; [exact sample_full|]].
  - exact (proj1 (proj2 (Collide Sample.exampleUrl Sample.entropy (fun _ => Sample.crowded)
                           sample_crowded)
                    (Sample.keyless Sample.exampleUrl) Sample.crowded Sample.clock
                    eq_refl sample_url_valid eq_refl)).
  - exact (Full (Sample.keyless Sample.exampleUrl) Sample.exampleUrl Sample.entropy
             Sample.full Sample.clock eq_refl LibraryFacts.md5Hex_length
             LibraryFacts.encode_alphabet LibraryFacts.encode_length sample_full
             eq_refl sample_url_valid eq_refl).
Defined.

(** A visit to [MyKey23] finds the record stored as [mykey23], redirects
    and counts one visit. *)
Lemma C6_witness :
  Store.getById Sample.withKey (Js.toLowerCase "MyKey23") =
    Some (Store.mkRow "mykey23" Sample.exampleUrl Sample.clock 0 None) /\
  snd (apiResolve Sample.withKey 1700000100 "MyKey23") = Redirect Sample.exampleUrl /\
  Store.getById (fst (apiResolve Sample.withKey 1700000100 "MyKey23")) (Js.toLowerCase "MyKey23") =
    Some (Store.mkRow "mykey23" Sample.exampleUrl Sample.clock 1 (Some 1700000100%N)).
Proof.
  assert (H : Store.getById Sample.withKey (Js.toLowerCase "MyKey23") =
              Some (Store.mkRow "mykey23" Sample.exampleUrl Sample.clock 0 None))
    by (vm_compute; reflexivity).
  split; [exact H|].
  destruct (proj1 (proj2 (proj2 (proj2 (proj2
              (C6_visit_counter 7 MD5.md5Hex Base32.encode SampleUrl.urlParses)))))
              Sample.withKey 1700000100%N "MyKey23" _ H) as [R [V _]].
  split; [exact R | exact V].
Defined.

(** The example of the specification: added as [MYKEY23], resolved as
    [mykey23]. *)
Lemma C7_witness :
  "MYKEY23" <> "" /\
  Sample.add 7 [] Sample.clock Sample.entropy (Sample.keyed Sample.exampleUrl "MYKEY23") =
    (Sample.withKey, Created false "qr.local/mykey23" "mykey23" Sample.exampleUrl) /\
  Js.toLowerCase "mykey23" = Js.toLowerCase "MYKEY23" /\
  snd (apiResolve Sample.withKey 1700000100 "mykey23") = Redirect Sample.exampleUrl.
Proof.
  assert (N : "MYKEY23" <> "") by discriminate.
  assert (A : Sample.add 7 [] Sample.clock Sample.entropy
                (Sample.keyed Sample.exampleUrl "MYKEY23") =
              (Sample.withKey, Created false "qr.local/mykey23" "mykey23" Sample.exampleUrl))
    by (vm_compute; reflexivity).
  assert (L : Js.toLowerCase "mykey23" = Js.toLowerCase "MYKEY23") by reflexivity.
  split; [exact N|]. split; [exact A|]. split; [exact L|].
  destruct (C7_case_insensitive 7 MD5.md5Hex Base32.encode SampleUrl.urlParses
              _ _ _ _ _ _ _ _ _ _ _ N A) as [_ [_ [_ R]]].
  exact (proj2 (R "mykey23" 1700000100%N L)).
Defined.

(** A check after the first add of a destination returns the identifier
    the add returned. *)
Lemma C8_witness :
  Sample.add 7 [] Sample.clock Sample.entropy (Sample.keyless Sample.exampleUrl) =
    (Sample.afterFirst, Created false "qr.local/hbqwinz" "hbqwinz" Sample.exampleUrl) /\
  Store.getByUrl [] Sample.exampleUrl = None /\
  Sample.check Sample.afterFirst (Js.Str Sample.exampleUrl) =
    CheckFound "qr.local/hbqwinz" "hbqwinz" Sample.exampleUrl Sample.clock 0 None.
Proof.
  assert (A : Sample.add 7 [] Sample.clock Sample.entropy (Sample.keyless Sample.exampleUrl) =
              (Sample.afterFirst, Created false "qr.local/hbqwinz" "hbqwinz" Sample.exampleUrl))
    by (vm_compute; reflexivity).
  split; [exact A|]. split; [reflexivity|].
  exact (proj1 (C8_check_after_add 7 MD5.md5Hex Base32.encode SampleUrl.urlParses
                  _ _ _ _ _ _ _ _ _ A) eq_refl).
Defined.

(** C8 as stated fails: the second add request for the sample
    destination returns [gm4tmyz], and the check that follows it reports
    [hbqwinz], the identifier of the first. *)
Lemma C8_counterexample :
  Sample.add 7 Sample.afterFirst (Sample.clock + 60) Sample.laterEntropy
    (Sample.keyless Sample.exampleUrl) =
    (Sample.afterSecond, Created false "qr.local/gm4tmyz" "gm4tmyz" Sample.exampleUrl) /\
  Sample.check Sample.afterSecond (Js.Str Sample.exampleUrl) =
    CheckFound "qr.local/hbqwinz" "hbqwinz" Sample.exampleUrl Sample.clock 0 None /\
  "hbqwinz" <> "gm4tmyz".
Proof.
  split; [vm_compute; reflexivity|]. split; [vm_compute; reflexivity | discriminate].
Qed.

(** An add request whose key is the empty string is served as one
    without a key: on the empty table it is answered with a created
    response under the generated identifier [71gp8dt]. *)
Lemma C9_witness :
  Js.truthy (Js.Str "") = false /\
  validUrl SampleUrl.urlParses Sample.exampleUrl /\
  candidate 7 MD5.md5Hex Base32Package.encode Sample.exampleUrl (Sample.entropy 0) 0 =
    "71gp8dt" /\
  Program.addAmong 7 (Sample.keyed Sample.exampleUrl "") Sample.entropy (fun _ => []) []
    Sample.clock =
  Program.addAmong 7 (Sample.keyless Sample.exampleUrl) Sample.entropy (fun _ => []) []
    Sample.clock /\
  ~ InvalidKeyFormat
      (snd (Program.addAmong 7 (Sample.keyed Sample.exampleUrl "") Sample.entropy
              (fun _ => []) [] Sample.clock)) /\
  Program.addAmong 7 (Sample.keyed Sample.exampleUrl "") Sample.entropy (fun _ => []) []
    Sample.clock =
  ([Store.mkRow
      (candidate 7 MD5.md5Hex Base32Package.encode Sample.exampleUrl (Sample.entropy 0) 0)
      Sample.exampleUrl Sample.clock 0 None],
   Created false
     ("qr.local/" ++
      candidate 7 MD5.md5Hex Base32Package.encode Sample.exampleUrl (Sample.entropy 0) 0)
     (candidate 7 MD5.md5Hex Base32Package.encode Sample.exampleUrl (Sample.entropy 0) 0)
     Sample.exampleUrl).
Proof.
  split; [reflexivity|]. split; [exact sample_url_valid|].
  split; [vm_compute; reflexivity|].
  destruct (C9_falsy_key_not_validated 7 MD5.md5Hex Base32Package.encode SampleUrl.urlParses
              (Sample.keyed Sample.exampleUrl "") Sample.entropy (fun _ => []) []
              Sample.clock eq_refl) as [_ [E [K [_ [_ G]]]]].
  split; [exact E|]. split; [exact K|].
  assert (B : 0 < maxAttempts) by (unfold maxAttempts; lia).
  exact (G Sample.exampleUrl 0 eq_refl sample_url_valid B eq_refl
           (fun j Hj => match Nat.nlt_0_r j Hj with end) eq_refl).
Defined.

(** The second add request for the sample destination stores it a second
    time, under a new identifier. *)
Lemma C10_witness :
  validUrl SampleUrl.urlParses Sample.exampleUrl /\
  Store.getByUrl Sample.afterFirst Sample.exampleUrl =
    Some (Store.mkRow "hbqwinz" Sample.exampleUrl Sample.clock 0 None) /\
  snd (generateBase32Id 7 MD5.md5Hex Base32.encode Sample.exampleUrl Sample.laterEntropy
         (fun _ => Sample.afterFirst)) = Some "gm4tmyz" /\
  Sample.add 7 Sample.afterFirst (Sample.clock + 60) Sample.laterEntropy
    (Sample.keyless Sample.exampleUrl) =
  ((Sample.afterFirst ++ [Store.mkRow "gm4tmyz" Sample.exampleUrl (Sample.clock + 60) 0 None])%list,
   Created false "qr.local/gm4tmyz" "gm4tmyz" Sample.exampleUrl).
Proof.
  assert (G : snd (generateBase32Id 7 MD5.md5Hex Base32.encode Sample.exampleUrl
                     Sample.laterEntropy (fun _ => Sample.afterFirst)) = Some "gm4tmyz")
    by (vm_compute; reflexivity).
  split; [exact sample_url_valid|]. split; [vm_compute; reflexivity|]. split; [exact G|].
  exact (proj1 (proj2 (C10_add_ignores_destinations 7 MD5.md5Hex Base32.encode
                         SampleUrl.urlParses)
                  Sample.afterFirst (Sample.clock + 60)%N Sample.laterEntropy
                  (Sample.keyless Sample.exampleUrl) Sample.exampleUrl "gm4tmyz"
                  eq_refl sample_url_valid eq_refl G)).
Defined.

(** The allocator found [cmvkack] free in the empty table; by the time of
    the insert another client holds it. *)
Lemma C2_witness :
  Js.truthy (body_key (Sample.keyless Sample.exampleUrl)) = false /\
  Program.prepare 7 (Sample.keyless Sample.exampleUrl) Program.raceEntropy (fun _ => []) =
    ToInsert "cmvkack" Sample.exampleUrl /\
  Store.getById Program.taken "cmvkack" <> None /\
  Program.addAmong 7 (Sample.keyless Sample.exampleUrl) Program.raceEntropy (fun _ => [])
    Program.taken (Sample.clock + 1) =
  (Program.taken, JsonError 500 "Database error").
Proof.
  assert (P : Program.prepare 7 (Sample.keyless Sample.exampleUrl) Program.raceEntropy
                (fun _ => []) = ToInsert "cmvkack" Sample.exampleUrl)
    by (vm_compute; reflexivity).
  assert (D : Store.getById Program.taken "cmvkack" <> None) by (vm_compute; discriminate).
  split; [reflexivity|]. split; [exact P|]. split; [exact D|].
  exact (proj1 (proj2 (C2_duplicate_at_insert_ends_request 7 MD5.md5Hex Base32Package.encode
                         SampleUrl.urlParses (Sample.keyless Sample.exampleUrl)
                         Program.raceEntropy (fun _ => []) Program.taken
                         (Sample.clock + 1)%N "cmvkack" Sample.exampleUrl eq_refl P D))).
Defined.

(** C2 as stated fails.  One client sends an add request without a key
    and the allocator, finding the table empty, settles on [cmvkack];
    before the insert another client's request with the custom key
    [CMVKACK] is served.  The insert is refused as a duplicate and the
    first request is answered with 500 'Database error': one candidate was
    looked up, none after the refusal, and the table is as the other
    client left it. *)
Lemma C2_counterexample :
  Program.generate 7 Sample.exampleUrl Program.raceEntropy (fun _ => []) =
    (["cmvkack"], Some "cmvkack") /\
  Program.add 7 [] Sample.clock Sample.laterEntropy (Sample.keyed Sample.otherUrl "CMVKACK") =
    (Program.taken, Created false "qr.local/cmvkack" "cmvkack" Sample.otherUrl) /\
  Store.insert Program.taken (Sample.clock + 1) "cmvkack" Sample.exampleUrl = None /\
  Program.addAmong 7 (Sample.keyless Sample.exampleUrl) Program.raceEntropy (fun _ => [])
    Program.taken (Sample.clock + 1) =
  (Program.taken, JsonError 500 "Database error") /\
  Store.getByUrl Program.taken Sample.exampleUrl = None.
Proof.
  repeat split; vm_compute; reflexivity.
Qed.

(** The key [MYKEY234] is too long for length 7, and [MYKE!] holds a
    character outside the alphabet. *)
Lemma C3_witness :
  validUrl SampleUrl.urlParses Sample.exampleUrl /\
  Js.truthy (Js.Str "MYKE!") = true /\
  firstFailure 7 (Js.Str "MYKE!") = Some AlphabetOnly /\
  (forall ent tbl,
     Sample.prepare 7 (Sample.keyed Sample.exampleUrl "MYKE!") ent tbl =
     Answered (JsonError 400 "Custom key must contain only base32 characters (A-Z, 2-7)")).
Proof.
  split; [exact sample_url_valid|]. split; [reflexivity|]. split; [reflexivity|].
  exact (proj2 (proj1 (C3_truthy_key_validated 7 MD5.md5Hex Base32.encode SampleUrl.urlParses
                         (Sample.keyed Sample.exampleUrl "MYKE!") Sample.exampleUrl
                         eq_refl sample_url_valid eq_refl)
                  AlphabetOnly eq_refl)).
Defined.

(** C3 as stated fails for the empty key: it breaks the first rule, and
    the request is answered with a created response under a generated
    identifier, not with a key-format error. *)
Lemma C3_counterexample :
  firstFailure 7 (Js.Str "") = Some NonEmptyString /\
  Sample.add 7 [] Sample.clock Sample.entropy (Sample.keyed Sample.exampleUrl "") =
    (Sample.afterFirst, Created false "qr.local/hbqwinz" "hbqwinz" Sample.exampleUrl) /\
  ~ InvalidKeyFormat
      (snd (Sample.add 7 [] Sample.clock Sample.entropy (Sample.keyed Sample.exampleUrl ""))).
Proof.
  split; [reflexivity|]. split; [vm_compute; reflexivity|].
  intros [msg [E _]]. vm_compute in E. discriminate.
Qed.

(** * Further properties of the handlers *)

Section Requests.

Variable maxBase32Length : nat.
Variable md5Hex : string -> string.
Variable base32Encode : string -> string.
Variable urlParses : string -> bool.

Local Abbreviation candidate := (candidate maxBase32Length md5Hex base32Encode).
Local Abbreviation generateFrom := (generateFrom maxBase32Length md5Hex base32Encode).
Local Abbreviation generateBase32Id := (generateBase32Id maxBase32Length md5Hex base32Encode).
Local Abbreviation customKey := (customKey maxBase32Length).
Local Abbreviation addPrepare := (addPrepare maxBase32Length md5Hex base32Encode urlParses).
Local Abbreviation apiAddAmong := (apiAddAmong maxBase32Length md5Hex base32Encode urlParses).
Local Abbreviation apiAdd := (apiAdd maxBase32Length md5Hex base32Encode urlParses).
Local Abbreviation apiCheck := (apiCheck urlParses).
Local Abbreviation handle := (handle maxBase32Length md5Hex base32Encode urlParses).
Local Abbreviation run := (run maxBase32Length md5Hex base32Encode urlParses).

Lemma generateFrom_first_free remaining attempts url ent tbl k :
  attempts <= k < attempts + remaining ->
  Store.getById (tbl k) (candidate url (ent k) k) = None ->
  (forall j, attempts <= j < k ->
     Store.getById (tbl j) (candidate url (ent j) j) <> None) ->
  generateFrom remaining attempts url ent tbl =
  (map (fun j => candidate url (ent j) j) (seq attempts (S k - attempts)),
   Some (candidate url (ent k) k)).
Proof.
  revert attempts. induction remaining as [|n IH]; intros a Hk Hfree Hbusy; [lia|].
  destruct (Nat.eq_dec a k) as [->|Hne].
  - replace (S k - k) with 1 by lia. simpl. now rewrite Hfree.
  - replace (S k - a) with (S (S k - S a)) by lia.
    remember (S k - S a) as m. simpl.
    destruct (Store.getById (tbl a) (candidate url (ent a) a)) eqn:E.
    + rewrite (IH (S a)); [|lia|assumption|intros j Hj; apply Hbusy; lia].
      now subst m.
    + exfalso. apply (Hbusy a); [lia | assumption].
Qed.

(** X1.  The allocator returns the candidate of the first attempt whose
    candidate the table does not hold at that moment, after one lookup per
    attempt up to and including that one. *)
Theorem X1_allocator_returns_first_free url ent tbl k :
  k < maxAttempts ->
  Store.getById (tbl k) (candidate url (ent k) k) = None ->
  (forall j, j < k -> Store.getById (tbl j) (candidate url (ent j) j) <> None) ->
  generateBase32Id url ent tbl =
  (map (fun j => candidate url (ent j) j) (seq 0 (S k)), Some (candidate url (ent k) k)).
Proof.
  intros Hk Hfree Hbusy. unfold generateBase32Id.
  rewrite (generateFrom_first_free maxAttempts 0 url ent tbl k); try assumption; try lia.
  - now rewrite Nat.sub_0_r.
  - intros j Hj. apply Hbusy. lia.
Qed.

(** What [POST /api/add] decides to insert is free in the table it looked
    the identifier up in. *)
Lemma addPrepare_free req ent tbl id url :
  addPrepare req ent tbl = ToInsert id url ->
  exists k, k < maxAttempts /\ Store.getById (tbl k) id = None.
Proof.
  intros P. apply addPrepare_ToInsert in P as [_ [_ [[_ P]|[_ P]]]].
  - apply customKey_ToInsert in P as [_ [k [_ [_ [_ [_ F]]]]]].
    exists 0. split; [unfold maxAttempts; lia | exact F].
  - apply generateFrom_returns in P as [k [Hk [_ [F _]]]].
    exists k. split; [lia | exact F].
Qed.

Lemma addPrepare_not_store_failure req ent tbl r :
  addPrepare req ent tbl = Answered r -> r <> JsonError 500 "Database error".
Proof.
  unfold addPrepare, customKey.
  repeat match goal with
         | |- context [match ?x with _ => _ end] => destruct x
         end;
    try discriminate; intros [= <-]; discriminate.
Qed.

(** X2.  A request to [POST /api/add] that is served without any other
    request in between is never answered with 500 'Database error': the
    identifier it inserts was found free in the very table it inserts
    into. *)
Theorem X2_add_alone_never_refused t now ent req :
  ~ StoreFailure (snd (apiAdd t now ent req)).
Proof.
  unfold StoreFailure, apiAdd, apiAddAmong.
  destruct (addPrepare req ent (fun _ => t)) as [r|id url] eqn:P; simpl.
  - now apply addPrepare_not_store_failure in P.
  - apply addPrepare_free in P as [k [_ F]].
    unfold addInsert, Store.insert. rewrite F. simpl. discriminate.
Qed.

(** X3.  [POST /api/add] changes the table only when it answers with a
    created response, and then by appending one row: the identifier and
    destination of the response, the current time, no visits.  With any
    other answer the table is as it was. *)
Theorem X3_add_appends_or_leaves req ent tbl t now :
  (exists asJson id url,
     apiAddAmong req ent tbl t now =
       ((t ++ [Store.mkRow id url now 0 None])%list,
        Created asJson ("qr.local/" ++ id) id url) /\
     body_url req = Js.Str url /\ Store.getById t id = None) \/
  (exists status msg,
     apiAddAmong req ent tbl t now = (t, JsonError status msg)).
Proof.
  unfold apiAddAmong.
  destruct (addPrepare req ent tbl) as [r|id url] eqn:P.
  - right. destruct (addPrepare_Answered _ _ _ _ _ _ _ _ P) as [st [msg ->]]. eauto.
  - unfold addInsert. destruct (Store.insert t now id url) as [t'|] eqn:I.
    + left. apply StoreFacts.insert_Some in I as [F ->].
      apply addPrepare_ToInsert in P as [U _]. eauto 6.
    + right. eauto.
Qed.

(** Lower-casing, removing a character and truncating leave a string in
    lower case. *)
Lemma toLowerCase_stable s :
  Js.forallb (fun c => Ascii.eqb (Js.lowerChar c) c) (Js.toLowerCase s) = true.
Proof.
  induction s as [|c r IH]; simpl; [reflexivity|].
  now rewrite JsFacts.lowerChar_idem, Ascii.eqb_refl, IH.
Qed.

Lemma removeAll_forallb p c s :
  Js.forallb p s = true -> Js.forallb p (Js.removeAll c s) = true.
Proof.
  induction s as [|d r IH]; simpl; [reflexivity|].
  intros H. apply andb_true_iff in H as [Hd Hr].
  destruct (Ascii.eqb d c); simpl; [auto | now rewrite Hd, IH].
Qed.

Lemma stable_toLowerCase s :
  Js.forallb (fun c => Ascii.eqb (Js.lowerChar c) c) s = true -> Js.toLowerCase s = s.
Proof.
  induction s as [|c r IH]; simpl; [reflexivity|].
  intros H. apply andb_true_iff in H as [Hc Hr]. apply Ascii.eqb_eq in Hc.
  now rewrite Hc, IH.
Qed.

Lemma candidate_lower url e k : Js.toLowerCase (candidate url e k) = candidate url e k.
Proof.
  apply stable_toLowerCase. unfold candidate.
  apply JsFacts.substring_from_start_forallb, removeAll_forallb, toLowerCase_stable.
Qed.

Lemma candidate_bounded url e k : String.length (candidate url e k) <= maxBase32Length.
Proof.
  unfold candidate. rewrite JsFacts.substring_from_start_length. lia.
Qed.

(** Whatever the library functions return, an identifier handed to the
    store is in lower case and no longer than the configured length. *)
Lemma stored_id_shape req ent tbl id url :
  addPrepare req ent tbl = ToInsert id url ->
  Js.toLowerCase id = id /\ String.length id <= maxBase32Length.
Proof.
  intros P. apply addPrepare_ToInsert in P as [_ [_ [[_ P]|[_ P]]]].
  - apply customKey_ToInsert in P as [_ [k [_ [L [_ [-> _]]]]]].
    rewrite JsFacts.toLowerCase_idem, JsFacts.toLowerCase_length. split; [reflexivity | lia].
  - apply generateFrom_returns in P as [k [_ [-> _]]].
    split; [apply candidate_lower | apply candidate_bounded].
Qed.

(** X4.  The identifier of a created response resolves at once: looking
    up the identifier, in any letter case, in the table the add request
    left redirects to the destination of the response.  This holds for
    generated identifiers as for custom keys. *)
Theorem X4_created_id_resolves req ent tbl t now t' asJson qr id url :
  apiAddAmong req ent tbl t now = (t', Created asJson qr id url) ->
  Store.getById t' id = Some (Store.mkRow id url now 0 None) /\
  Js.toLowerCase id = id /\
  forall base32id now',
    Js.toLowerCase base32id = id ->
    apiResolve t' now' base32id = (Store.recordVisit t' now' id, Redirect url).
Proof.
  intros H. apply apiAddAmong_Created in H as [P [I _]].
  assert (G := StoreFacts.getById_insert_same _ _ _ _ _ I).
  split; [exact G|]. split; [exact (proj1 (stored_id_shape _ _ _ _ _ P))|].
  intros raw now' E.
  unfold apiResolve, resolveLookup. now rewrite E, G.
Qed.

Lemma isBase32Char_lowerChar c : Js.isBase32Char (Js.lowerChar c) = Js.isBase32Char c.
Proof. JsFacts.by_cases_on_char c. Qed.

Lemma testBase32_toLowerCase s : Js.testBase32 (Js.toLowerCase s) = Js.testBase32 s.
Proof.
  assert (F : forall r, Js.forallb Js.isBase32Char (Js.toLowerCase r) =
                        Js.forallb Js.isBase32Char r).
  { induction r as [|c r IH]; simpl; [reflexivity|].
    now rewrite isBase32Char_lowerChar, IH. }
  destruct s as [|c r]; [reflexivity|]. exact (F (String c r)).
Qed.

(** X5.  A custom key can be taken once, whatever the letter case: after
    a created response to an add request with a non-empty key, an add
    request with a valid destination and a key that has the same
    lower-case form is answered with 409 and leaves the table as it is. *)
Theorem X5_key_taken_in_any_case t now ent url key acc t' asJson qr id url'
    now2 ent2 url2 key2 acc2 :
  key <> "" ->
  apiAdd t now ent (mkAdd (Js.Str url) (Js.Str key) acc) = (t', Created asJson qr id url') ->
  Js.toLowerCase key2 = Js.toLowerCase key ->
  validUrl urlParses url2 ->
  apiAdd t' now2 ent2 (mkAdd (Js.Str url2) (Js.Str key2) acc2) =
    (t', JsonError 409 "Custom key already exists. Choose a different key.") /\
  DuplicateKey (snd (apiAdd t' now2 ent2 (mkAdd (Js.Str url2) (Js.Str key2) acc2))).
Proof.
  intros Hne A E [Hu2 Hp2].
  apply apiAddAmong_Created in A as [P [I _]].
  apply addPrepare_ToInsert in P as [_ [_ [[_ P]|[Hk _]]]];
    [|simpl in Hk; apply String.eqb_neq in Hne; rewrite Hne in Hk; discriminate].
  cbn [body_key] in P.
  apply customKey_ToInsert in P as [_ [k [[= <-] [L [T [-> _]]]]]].
  assert (G := StoreFacts.getById_insert_same _ _ _ _ _ I).
  assert (L2 : String.length key2 = String.length key).
  { now rewrite <- (JsFacts.toLowerCase_length key2), E, JsFacts.toLowerCase_length. }
  assert (T2 : Js.testBase32 key2 = true).
  { now rewrite <- testBase32_toLowerCase, E, testBase32_toLowerCase. }
  assert (N2 : key2 <> "").
  { intros ->. simpl in L2. destruct key; [congruence | discriminate]. }
  assert (R : apiAdd t' now2 ent2 (mkAdd (Js.Str url2) (Js.Str key2) acc2) =
              (t', JsonError 409 "Custom key already exists. Choose a different key.")).
  { unfold apiAdd, apiAddAmong, addPrepare, customKey. simpl.
    apply String.eqb_neq in Hu2, N2. rewrite Hu2, Hp2, N2. simpl.
    rewrite L2, T2, E, G.
    replace (Nat.eqb (String.length key) 0) with false
      by (symmetry; apply Nat.eqb_neq; lia).
    replace (Nat.ltb maxBase32Length (String.length key)) with false
      by (symmetry; apply Nat.ltb_ge; lia).
    reflexivity. }
  rewrite R. split; reflexivity.
Qed.

(** A property of identifiers that holds of every identifier handed to the
    store holds of every identifier in the table, request after request. *)
Lemma insert_ids (P : string -> Prop) t now id url t' :
  Forall (fun r => P (Store.id r)) t -> P id ->
  Store.insert t now id url = Some t' -> Forall (fun r => P (Store.id r)) t'.
Proof.
  intros Ht Hid I. apply StoreFacts.insert_Some in I as [_ ->].
  apply Forall_app. split; [assumption | repeat constructor; assumption].
Qed.

Lemma apiAddAmong_ids (P : string -> Prop) req ent tbl t now :
  (forall id url, addPrepare req ent tbl = ToInsert id url -> P id) ->
  Forall (fun r => P (Store.id r)) t ->
  Forall (fun r => P (Store.id r)) (fst (apiAddAmong req ent tbl t now)).
Proof.
  intros HP Ht. unfold apiAddAmong.
  destruct (addPrepare req ent tbl) as [r|id url] eqn:E; [assumption|].
  unfold addInsert. destruct (Store.insert t now id url) as [t'|] eqn:I; [|assumption].
  simpl. eapply insert_ids; eauto.
Qed.

Lemma handle_ids (P : string -> Prop) t q :
  (forall req ent tbl id url, addPrepare req ent tbl = ToInsert id url -> P id) ->
  Forall (fun r => P (Store.id r)) t ->
  Forall (fun r => P (Store.id r)) (fst (handle t q)).
Proof.
  intros HP Ht. destruct q as [now ent req|now raw|url|id]; simpl.
  - apply apiAddAmong_ids; [intros; eapply HP; eauto | assumption].
  - unfold apiResolve, resolveLookup.
    destruct (Store.getById t (Js.toLowerCase raw)); simpl; [|assumption].
    unfold Store.recordVisit. apply Forall_map.
    eapply Forall_impl; [|exact Ht]. intros x Hx. now destruct (Store.hasId _ x).
  - assumption.
  - unfold apiDelete. destruct (String.eqb id ""); [assumption|].
    destruct (Store.getById t (Js.toLowerCase id)); simpl; [|assumption].
    unfold Store.delete. apply Forall_forall. intros x Hx.
    apply filter_In in Hx as [Hx _]. now apply (proj1 (Forall_forall _ _) Ht).
Qed.

Lemma run_invariant (Inv : Store.Table -> Prop) requests :
  (forall t q, Inv t -> Inv (fst (handle t q))) ->
  forall t, Inv t -> Inv (run t requests).
Proof.
  intros Step. unfold run. induction requests as [|q qs IH]; intros t Ht; simpl; auto.
Qed.

(** X6.  Whatever requests have been served since the table was empty, no
    two records share an identifier; and the insert of an add request that
    runs after other requests keeps it so. *)
Theorem X6_identifiers_unique :
  (forall requests, Store.keysUnique (run [] requests)) /\
  (forall req ent tbl t now,
     Store.keysUnique t -> Store.keysUnique (fst (apiAddAmong req ent tbl t now))).
Proof.
  split.
  - intros requests. apply run_invariant.
    + intros t q. apply handle_keysUnique.
    + constructor.
  - intros req ent tbl t now. apply apiAddAmong_keysUnique.
Qed.

(** X7.  Whatever requests have been served since the table was empty,
    and whatever the digest and the encoder return, every identifier in
    the table is in lower case and at most [maxBase32Length] characters
    long. *)
Theorem X7_identifiers_lower_case_and_bounded requests :
  lowerCaseIds (run [] requests) /\ lengthBounded maxBase32Length (run [] requests).
Proof.
  split.
  - apply (run_invariant lowerCaseIds); [|constructor].
    intros t q. apply (handle_ids (fun id => Js.toLowerCase id = id)).
    intros req ent tbl id url P. exact (proj1 (stored_id_shape _ _ _ _ _ P)).
  - apply (run_invariant (lengthBounded maxBase32Length)); [|constructor].
    intros t q. apply (handle_ids (fun id => String.length id <= maxBase32Length)).
    intros req ent tbl id url P. exact (proj2 (stored_id_shape _ _ _ _ _ P)).
Qed.

(** X8.  No request rewrites a record: a record that is in the table
    before and after a request has the same identifier, destination and
    creation time; only its visit counter and last visit can differ. *)
Theorem X8_records_keep_destination t q j r r' :
  Store.getById t j = Some r ->
  Store.getById (fst (handle t q)) j = Some r' ->
  Store.id r' = Store.id r /\ Store.url r' = Store.url r /\
  Store.created r' = Store.created r.
Proof.
  intros Hr. destruct q as [now ent req|now raw|url|id]; simpl.
  - unfold apiAdd. rewrite (apiAddAmong_keeps _ _ _ _ _ _ _ _ _ _ _ Hr).
    intros [= <-]. auto.
  - unfold apiResolve, resolveLookup.
    destruct (Store.getById t (Js.toLowerCase raw)); simpl.
    + rewrite StoreFacts.getById_recordVisit, Hr. intros [= <-].
      destruct (Store.hasId _ r); auto.
    + rewrite Hr. intros [= <-]. auto.
  - rewrite Hr. intros [= <-]. auto.
  - unfold apiDelete. destruct (String.eqb id ""); simpl.
    + rewrite Hr. intros [= <-]. auto.
    + destruct (Store.getById t (Js.toLowerCase id)); simpl.
      * rewrite StoreFacts.getById_delete. destruct (String.eqb j _); [discriminate|].
        rewrite Hr. intros [= <-]. auto.
      * rewrite Hr. intros [= <-]. auto.
Qed.

Lemma keysUnique_getById t r :
  Store.keysUnique t -> In r t -> Store.getById t (Store.id r) = Some r.
Proof.
  unfold Store.keysUnique, Store.getById.
  induction t as [|x t IH]; intros U Hin; [destruct Hin|].
  simpl in U. inversion U as [|? ? Hx Ht]; subst. simpl.
  destruct Hin as [->|Hin].
  - unfold Store.hasId. now rewrite String.eqb_refl.
  - destruct (Store.hasId (Store.id r) x) eqn:E.
    + apply StoreFacts.hasId_true in E. exfalso. apply Hx. rewrite E. now apply in_map.
    + now apply IH.
Qed.

Lemma run_shape requests :
  Store.keysUnique (run [] requests) /\ lowerCaseIds (run [] requests).
Proof.
  split.
  - apply run_invariant; [intros t q; apply handle_keysUnique | constructor].
  - apply (run_invariant lowerCaseIds); [|constructor].
    intros t q. apply (handle_ids (fun id => Js.toLowerCase id = id)).
    intros req ent tbl id url P. exact (proj1 (stored_id_shape _ _ _ _ _ P)).
Qed.

Lemma resolve_own_id t r now :
  Store.keysUnique t -> lowerCaseIds t -> In r t ->
  apiResolve t now (Store.id r) = (Store.recordVisit t now (Store.id r), Redirect (Store.url r)).
Proof.
  intros U A Hin.
  assert (L := proj1 (Forall_forall _ _) A r Hin). simpl in L.
  unfold apiResolve, resolveLookup. now rewrite L, (keysUnique_getById _ _ U Hin).
Qed.

(** X9.  No record is out of reach: whatever requests have been served
    since the table was empty, requesting the identifier of any record in
    the table redirects to the destination of that very record and counts
    the visit on it. *)
Theorem X9_every_record_resolves requests r now :
  In r (run [] requests) ->
  apiResolve (run [] requests) now (Store.id r) =
    (Store.recordVisit (run [] requests) now (Store.id r), Redirect (Store.url r)) /\
  Store.getById (Store.recordVisit (run [] requests) now (Store.id r)) (Store.id r) =
    Some (Store.visit now r).
Proof.
  intros Hin. destruct (run_shape requests) as [U A].
  split; [now apply resolve_own_id|].
  rewrite StoreFacts.getById_recordVisit, (keysUnique_getById _ _ U Hin).
  unfold Store.hasId. now rewrite String.eqb_refl.
Qed.

(** X10.  Visits add up: after the same identifier has been requested
    once at each of a list of times, the record it names has that many
    more visits, and its last visit is the last of those times. *)
Theorem X10_visits_add_up base32id times t r :
  Store.getById t (Js.toLowerCase base32id) = Some r ->
  Store.getById (visitAt base32id times t) (Js.toLowerCase base32id) =
    Some (Store.mkRow (Store.id r) (Store.url r) (Store.created r)
            (Store.visits r + N.of_nat (List.length times))
            (last (map Some times) (Store.last_visit r))).
Proof.
  unfold visitAt. revert t r. induction times as [|now times IH]; intros t r Hr.
  - simpl. rewrite Hr, N.add_0_r. now destruct r.
  - cbn [fold_left]. unfold apiResolve at 2, resolveLookup. rewrite Hr. cbn [fst].
    assert (G : Store.getById (Store.recordVisit t now (Js.toLowerCase base32id))
                  (Js.toLowerCase base32id) = Some (Store.visit now r)).
    { rewrite StoreFacts.getById_recordVisit, Hr.
      now rewrite (proj2 (StoreFacts.hasId_true _ _) (StoreFacts.getById_id _ _ _ Hr)). }
    rewrite (IH _ _ G). cbn [Store.visit Store.id Store.url Store.created Store.visits
                              Store.last_visit List.length map].
    f_equal. f_equal; [lia|].
    destruct times as [|x xs]; [reflexivity|]. cbn [map].
    assert (D : forall (l : list (option N)) a d d', last (a :: l) d = last (a :: l) d').
    { induction l as [|b l IHl]; intros a d d'; [reflexivity|].
      change (last (b :: l) d = last (b :: l) d'). apply IHl. }
    change (last (Some x :: map Some xs) (Some now) =
            last (Some x :: map Some xs) (Store.last_visit r)).
    apply D.
Qed.

Lemma toLowerCase_nonempty a b :
  Js.toLowerCase a = Js.toLowerCase b -> b <> "" -> a <> "".
Proof.
  intros E Hb ->. destruct b; [congruence | discriminate].
Qed.

Lemma apiDelete_Deleted t id t' did durl :
  apiDelete t id = (t', Deleted did durl) ->
  id <> "" /\ t' = Store.delete t (Js.toLowerCase id) /\
  exists r, Store.getById t (Js.toLowerCase id) = Some r /\
    did = Store.id r /\ durl = Store.url r.
Proof.
  unfold apiDelete. destruct (String.eqb id "") eqn:E; [discriminate|].
  apply String.eqb_neq in E.
  destruct (Store.getById t (Js.toLowerCase id)) as [r|]; [|discriminate].
  intros [= <- <- <-]. eauto 6.
Qed.

(** X11.  Deleting is final and reports what it deleted.  A successful
    [DELETE /api/delete/:id] answers with the identifier and destination of
    the record the lower-cased identifier named; afterwards a request for
    that identifier in any letter case is answered with 404 by the resolver
    and by a second delete, neither of which changes the table. *)
Theorem X11_delete_is_final t id t' did durl :
  apiDelete t id = (t', Deleted did durl) ->
  (exists r, Store.getById t (Js.toLowerCase id) = Some r /\
     did = Store.id r /\ durl = Store.url r) /\
  forall other,
    Js.toLowerCase other = Js.toLowerCase id ->
    (forall now, apiResolve t' now other = (t', Send 404 "Redirect not found")) /\
    apiDelete t' other = (t', JsonError 404 "Redirect not found").
Proof.
  intros H. apply apiDelete_Deleted in H as [Hne [-> R]].
  split; [exact R|]. intros other E.
  assert (G : Store.getById (Store.delete t (Js.toLowerCase id)) (Js.toLowerCase other) = None).
  { now rewrite StoreFacts.getById_delete, E, String.eqb_refl. }
  split.
  - intros now. unfold apiResolve, resolveLookup. now rewrite G.
  - unfold apiDelete. rewrite G.
    assert (N : other <> "") by (eapply toLowerCase_nonempty; eauto).
    apply String.eqb_neq in N. now rewrite N.
Qed.

Lemma delete_length t k r :
  Store.keysUnique t -> Store.getById t k = Some r ->
  S (List.length (Store.delete t k)) = List.length t.
Proof.
  unfold Store.keysUnique, Store.getById, Store.delete.
  induction t as [|x t IH]; intros U H; [discriminate|].
  simpl in *. inversion U as [|? ? Hx Ht]; subst.
  destruct (Store.hasId k x) eqn:E; simpl.
  - f_equal. apply StoreFacts.hasId_true in E.
    assert (F : forall l, ~ In k (map Store.id l) ->
                filter (fun r0 => negb (Store.hasId k r0)) l = l).
    { induction l as [|y l IHl]; intros Hn; [reflexivity|]. simpl.
      destruct (Store.hasId k y) eqn:Ey.
      - apply StoreFacts.hasId_true in Ey. exfalso. apply Hn. now left.
      - simpl. f_equal. apply IHl. intros Hin. apply Hn. now right. }
    rewrite F; [reflexivity | now rewrite <- E].
  - f_equal. now apply IH.
Qed.

(** X12.  A successful delete removes one record and touches no other: in
    a table without duplicate identifiers it is one row shorter, and every
    other identifier finds the record it found before. *)
Theorem X12_delete_removes_one t id t' did durl :
  Store.keysUnique t ->
  apiDelete t id = (t', Deleted did durl) ->
  S (List.length t') = List.length t /\
  forall j, j <> Js.toLowerCase id -> Store.getById t' j = Store.getById t j.
Proof.
  intros U H. apply apiDelete_Deleted in H as [_ [-> [r [G _]]]]. split.
  - eapply delete_length; eauto.
  - intros j Hj. rewrite StoreFacts.getById_delete.
    apply String.eqb_neq in Hj. now rewrite Hj.
Qed.

Lemma find_first {A} (p : A -> bool) l x :
  find p l = Some x ->
  exists before after, l = (before ++ x :: after)%list /\
    forall y, In y before -> p y = false.
Proof.
  induction l as [|a l IH]; [discriminate|]. simpl.
  destruct (p a) eqn:E.
  - intros [= <-]. exists [], l. split; [reflexivity | intros y []].
  - intros H. destruct (IH H) as [b [c [-> Hb]]].
    exists (a :: b), c. split; [reflexivity|].
    intros y [<-|Hy]; auto.
Qed.

Lemma apiCheck_valid t url :
  validUrl urlParses url ->
  apiCheck t (Js.Str url) =
  match Store.getByUrl t url with
  | Some row =>
      CheckFound ("qr.local/" ++ Store.id row) (Store.id row) (Store.url row)
        (Store.created row) (Store.visits row) (Store.last_visit row)
  | None => CheckAbsent
  end.
Proof.
  intros [Hne Hp]. unfold apiCheck. simpl.
  apply String.eqb_neq in Hne. now rewrite Hne, Hp.
Qed.

(** X13.  What [GET /api/check] reports for a valid destination is the
    first record of the table with exactly that destination: it answers
    that none exists precisely when no record has the destination, and
    otherwise reports the fields of a record before which no record has
    it.  In a table that requests have built from the empty one, the
    identifier it reports redirects to the destination checked. *)
Theorem X13_check_reports_first_record t url :
  validUrl urlParses url ->
  (apiCheck t (Js.Str url) = CheckAbsent <->
   forall r, In r t -> Store.url r <> url) /\
  (forall qr id url' created visits last,
     apiCheck t (Js.Str url) = CheckFound qr id url' created visits last ->
     qr = ("qr.local/" ++ id) /\ url' = url /\
     exists before after,
       t = (before ++ Store.mkRow id url created visits last :: after)%list /\
       forall r, In r before -> Store.url r <> url) /\
  (forall requests qr id url' created visits last now,
     t = run [] requests ->
     apiCheck t (Js.Str url) = CheckFound qr id url' created visits last ->
     snd (apiResolve t now id) = Redirect url).
Proof.
  intros V. rewrite (apiCheck_valid t url V).
  assert (Found : forall qr id url' created visits last,
     match Store.getByUrl t url with
     | Some row =>
         CheckFound ("qr.local/" ++ Store.id row) (Store.id row) (Store.url row)
           (Store.created row) (Store.visits row) (Store.last_visit row)
     | None => CheckAbsent
     end = CheckFound qr id url' created visits last ->
     qr = ("qr.local/" ++ id) /\ url' = url /\
     exists before after,
       t = (before ++ Store.mkRow id url created visits last :: after)%list /\
       forall r, In r before -> Store.url r <> url).
  { intros qr id url' created visits last.
    destruct (Store.getByUrl t url) as [row|] eqn:G; [|discriminate].
    intros [= <- <- <- <- <- <-].
    assert (U := StoreFacts.getByUrl_url _ _ _ G).
    split; [reflexivity|]. split; [exact U|].
    destruct (find_first _ _ _ G) as [b [a [-> Hb]]].
    exists b, a. split; [destruct row; simpl in U; now subst|].
    intros r Hr E. specialize (Hb r Hr).
    apply (proj2 (StoreFacts.hasUrl_true url r)) in E. congruence. }
  split; [|split; [exact Found|]].
  - destruct (Store.getByUrl t url) as [row|] eqn:G; split.
    + discriminate.
    + intros H. exfalso. apply find_some in G as [Hin Hu].
      apply StoreFacts.hasUrl_true in Hu. exact (H row Hin Hu).
    + intros _ r Hin E. unfold Store.getByUrl in G.
      apply (find_none _ _ G) in Hin. apply (proj2 (StoreFacts.hasUrl_true url r)) in E.
      congruence.
    + reflexivity.
  - intros requests qr id url' created visits last now -> C.
    destruct (Found _ _ _ _ _ _ C) as [_ [_ [b [a [E _]]]]].
    assert (Hin : In (Store.mkRow id url created visits last) (run [] requests)).
    { rewrite E. apply in_or_app. right. now left. }
    destruct (run_shape requests) as [U A].
    assert (R := resolve_own_id _ _ now U A Hin). simpl in R. now rewrite R.
Qed.

End Requests.

(** * QR codes *)

Module QrFacts.

Lemma base32_is_alphanumeric c :
  Js.isBase32Char c = true -> Qr.isAlphanumericChar c = true.
Proof. JsFacts.by_cases_on_char c. Qed.

Lemma short_url_alphanumeric id :
  Qr.testAlphanumeric ("qr.local/" ++ id) = Js.forallb Qr.isAlphanumericChar id.
Proof. reflexivity. Qed.

Lemma short_url_not_digits id : Qr.testDigits ("qr.local/" ++ id) = false.
Proof. reflexivity. Qed.

(** The mode chosen for a short URL. *)
Lemma chooseMode_short_url qrMode id :
  Qr.chooseMode qrMode ("qr.local/" ++ id) =
  if String.eqb qrMode "alphanumeric" && Js.forallb Qr.isAlphanumericChar id
  then "alphanumeric" else "byte".
Proof.
  unfold Qr.chooseMode. rewrite short_url_not_digits, short_url_alphanumeric.
  now rewrite andb_false_r.
Qed.

(** Whatever a route asks of the renderer is the short URL of the record
    the lower-cased identifier names. *)
Lemma route_asks render c t id rendering :
  Qr.askedOf (Qr.display render c t id) = Some rendering \/
  Qr.askedOf (Qr.downloadPng render c t id) = Some rendering \/
  Qr.askedOf (Qr.downloadSvg render c t id) = Some rendering ->
  exists row format,
    Store.getById t (Js.toLowerCase id) = Some row /\
    rendering = Qr.generateQRCode c ("qr.local/" ++ Store.id row) format.
Proof.
  unfold Qr.display, Qr.downloadPng, Qr.downloadSvg.
  destruct (Store.getById t (Js.toLowerCase id)) as [row|];
    [|intros [H|[H|H]]; discriminate].
  intros [H|[H|H]]; cbv zeta in H;
    match type of H with
    | context [render ?a] => destruct (render a)
    end; simpl in H; injection H as <-; eauto.
Qed.

Lemma generateQRCode_parts c text format :
  Qr.textOf (Qr.generateQRCode c text format) = text /\
  Qr.mode (Qr.optionsOf (Qr.generateQRCode c text format)) =
    Qr.chooseMode (Startup.qrMode c) text.
Proof.
  unfold Qr.generateQRCode. destruct (String.eqb format "svg"); split; reflexivity.
Qed.

End QrFacts.

(** X14.  The QR routes never ask the renderer for numeric mode,
    whatever mode the server was started with: the text they render begins
    with [qr.local/].  Started in alphanumeric mode, the default, they ask
    for alphanumeric mode for a record whose own identifier is over the
    base 32 alphabet, and more generally for one whose identifier consists
    of letters and digits, whatever else the table holds; started in any
    other mode they ask for byte mode. *)
Theorem X14_qr_mode_never_numeric render c t id rendering :
  Qr.askedOf (Qr.display render c t id) = Some rendering \/
  Qr.askedOf (Qr.downloadPng render c t id) = Some rendering \/
  Qr.askedOf (Qr.downloadSvg render c t id) = Some rendering ->
  Qr.mode (Qr.optionsOf rendering) <> "numeric" /\
  (Startup.qrMode c = "alphanumeric" ->
   forall row, Store.getById t (Js.toLowerCase id) = Some row ->
   overAlphabet (Store.id row) ->
   Qr.mode (Qr.optionsOf rendering) = "alphanumeric") /\
  (Startup.qrMode c = "alphanumeric" ->
   forall row, Store.getById t (Js.toLowerCase id) = Some row ->
   Js.forallb Qr.isAlphanumericChar (Store.id row) = true ->
   Qr.mode (Qr.optionsOf rendering) = "alphanumeric") /\
  (Startup.qrMode c <> "alphanumeric" ->
   Qr.mode (Qr.optionsOf rendering) = "byte").
Proof.
  intros H. apply QrFacts.route_asks in H as [row [format [G ->]]].
  rewrite (proj2 (QrFacts.generateQRCode_parts c _ format)), QrFacts.chooseMode_short_url.
  assert (A : Startup.qrMode c = "alphanumeric" ->
              forall row', Store.getById t (Js.toLowerCase id) = Some row' ->
              Js.forallb Qr.isAlphanumericChar (Store.id row') = true ->
              (if String.eqb (Startup.qrMode c) "alphanumeric" &&
                  Js.forallb Qr.isAlphanumericChar (Store.id row)
               then "alphanumeric" else "byte") = "alphanumeric").
  { intros -> row' G' O. rewrite G in G'. injection G' as <-. now rewrite O. }
  split; [|split; [|split]].
  - destruct (_ && _); discriminate.
  - intros M row' G' O. apply (A M row' G').
    exact (JsFacts.forallb_weaken _ _ _ QrFacts.base32_is_alphanumeric O).
  - exact A.
  - intros Hm. apply String.eqb_neq in Hm. now rewrite Hm.
Qed.

Section QrRoutes.

Variable maxBase32Length : nat.
Variable md5Hex : string -> string.
Variable base32Encode : string -> string.
Variable urlParses : string -> bool.

Local Abbreviation run := (run maxBase32Length md5Hex base32Encode urlParses).

(** X15.  The QR routes go to the renderer exactly for the identifiers
    the resolver redirects, and what they ask for points at a live
    redirect.  In a table that requests have built from the empty one,
    each route answers not found when the resolver answers 404; otherwise
    it asks the renderer for [qr.local/] followed by the stored identifier,
    whose request is redirected to the same destination, in whatever
    letter case the route was asked; it sends what the renderer returns,
    and answers 500 'Failed to generate QR code' when the renderer
    throws. *)
Theorem X15_qr_points_at_live_redirect render c requests id now :
  let t := run [] requests in
  (snd (apiResolve t now id) = Send 404 "Redirect not found" ->
   Qr.display render c t id = Qr.Missing (Send 404 "Redirect not found") /\
   Qr.downloadPng render c t id = Qr.Missing (JsonError 404 "Redirect not found") /\
   Qr.downloadSvg render c t id = Qr.Missing (JsonError 404 "Redirect not found")) /\
  (forall url, snd (apiResolve t now id) = Redirect url ->
   exists stored,
     snd (apiResolve t now stored) = Redirect url /\
     let png := Qr.generateQRCode c ("qr.local/" ++ stored) "png" in
     let svg := Qr.generateQRCode c ("qr.local/" ++ stored) "svg" in
     Qr.askedOf (Qr.display render c t id) = Some png /\
     Qr.askedOf (Qr.downloadPng render c t id) = Some png /\
     Qr.askedOf (Qr.downloadSvg render c t id) = Some svg /\
     (render png = None ->
      Qr.display render c t id = Qr.Failed png (Send 500 "Failed to generate QR code") /\
      Qr.downloadPng render c t id =
        Qr.Failed png (JsonError 500 "Failed to generate QR code")) /\
     (render svg = None ->
      Qr.downloadSvg render c t id =
        Qr.Failed svg (JsonError 500 "Failed to generate QR code")) /\
     (forall qrCode, render png = Some qrCode ->
      exists headers1 headers2,
        Qr.display render c t id =
          Qr.Image png (Qr.FromBase64 (Qr.stripDataUrl qrCode)) headers1 /\
        Qr.downloadPng render c t id =
          Qr.Image png (Qr.FromBase64 (Qr.stripDataUrl qrCode)) headers2) /\
     (forall qrCode, render svg = Some qrCode ->
      exists headers,
        Qr.downloadSvg render c t id = Qr.Image svg (Qr.Markup qrCode) headers)).
Proof.
  intros t. unfold apiResolve, resolveLookup, Qr.display, Qr.downloadPng, Qr.downloadSvg.
  destruct (Store.getById t (Js.toLowerCase id)) as [row|] eqn:G; cbn [snd fst].
  - split; [discriminate|]. intros url [= <-].
    exists (Store.id row). split.
    + assert (Hin := StoreFacts.getById_In _ _ _ G).
      destruct (run_shape maxBase32Length md5Hex base32Encode urlParses requests) as [U A].
      fold t in U, A.
      assert (L := proj1 (Forall_forall _ _) A row Hin). simpl in L.
      now rewrite L, (keysUnique_getById _ _ U Hin).
    + cbv zeta. change (Js.toLowerCase "png") with "png".
      change (String.eqb "png" "svg") with false. cbv iota.
      set (png := Qr.generateQRCode c ("qr.local/" ++ Store.id row) "png").
      set (svg := Qr.generateQRCode c ("qr.local/" ++ Store.id row) "svg").
      split; [now destruct (render png)|].
      split; [now destruct (render png)|].
      split; [now destruct (render svg)|].
      split; [intros H; rewrite H; split; reflexivity|].
      split; [intros H; now rewrite H|].
      split; intros qrCode H; rewrite H; eauto.
  - split; [auto|]. discriminate.
Qed.

End QrRoutes.

(** * Start-up *)

Module StartupFacts.
Import Startup.

Lemma versionArgument_range value v :
  versionArgument value = Some v -> (1 <= v <= 40)%Z.
Proof.
  unfold versionArgument. destruct value as [s|]; [|discriminate].
  destruct (Builtin.parseInt s) as [z|]; [|discriminate].
  destruct (Z.eqb z 0) eqn:E0; [discriminate|].
  destruct (Z.ltb z 1) eqn:E1; [discriminate|].
  destruct (Z.ltb 40 z) eqn:E2; [discriminate|].
  simpl. intros [= <-]. apply Z.ltb_ge in E1, E2. lia.
Qed.

Lemma upperAmong_member choices s choice :
  Builtin.upperAmong choices s = Some choice -> In choice choices.
Proof. intros H. now apply find_some in H as [H _]. Qed.

Lemma lowerAmong_member choices s choice :
  Builtin.lowerAmong choices s = Some choice -> In choice choices.
Proof. intros H. now apply find_some in H as [H _]. Qed.

(** A numeric argument is none of the options. *)
Lemma numeric_is_no_option a z :
  Builtin.parseInt a = Some z ->
  String.eqb a "--qr-error" || String.eqb a "-e" = false /\
  String.eqb a "--qr-version" || String.eqb a "-v" = false /\
  String.eqb a "--qr-mode" || String.eqb a "-m" = false /\
  String.eqb a "--help" || String.eqb a "-h" = false.
Proof.
  intros H.
  assert (N : forall flag, Builtin.parseInt flag = None -> String.eqb a flag = false).
  { intros flag F. destruct (String.eqb a flag) eqn:E; [|reflexivity].
    apply String.eqb_eq in E. congruence. }
  repeat split; apply orb_false_iff; split; apply N; reflexivity.
Qed.

(** One turn of the loop on a numeric argument. *)
Lemma parseArgs_numeric a z rest c :
  Builtin.parseInt a = Some z ->
  parseArgs (a :: rest) c =
  match lengthArgument z with
  | Some n => parseArgs rest (mkConfig n (qrErrorCorrection c) (qrVersion c) (qrMode c))
  | None => Exited 1
  end.
Proof.
  intros H. destruct (numeric_is_no_option a z H) as [E1 [E2 [E3 E4]]].
  cbn [parseArgs]. now rewrite E1, E2, E3, E4, H.
Qed.

Lemma lengthArgument_in_range z :
  (0 < z <= 20)%Z -> lengthArgument z = Some (Z.to_nat z).
Proof.
  intros [H1 H2]. unfold lengthArgument.
  apply Z.ltb_lt in H1. apply Z.leb_le in H2. now rewrite H1, H2.
Qed.

Lemma lengthArgument_out_of_range z :
  ~ (0 < z <= 20)%Z -> lengthArgument z = None.
Proof.
  intros H. unfold lengthArgument.
  destruct (Z.ltb 0 z) eqn:E1; destruct (Z.leb z 20) eqn:E2; try reflexivity.
  apply Z.ltb_lt in E1. apply Z.leb_le in E2. lia.
Qed.

Lemma parseArgs_wellFormed n :
  forall args c c',
    List.length args <= n ->
    wellFormed c -> parseArgs args c = Started c' -> wellFormed c'.
Proof.
  induction n as [|n IH]; intros args c c' Hn W.
  - destruct args; [|simpl in Hn; lia]. simpl. now intros [= <-].
  - destruct args as [|arg rest]; [simpl; now intros [= <-]|].
    simpl in Hn. destruct W as [W1 [W2 [W3 W4]]].
    assert (After : forall c1, wellFormed c1 ->
              match rest with
              | [] => Started c1
              | _ :: rest' => parseArgs rest' c1
              end = Started c' -> wellFormed c').
    { intros c1 W'. destruct rest as [|v rest']; [now intros [= <-]|].
      apply IH; [simpl in Hn; lia | exact W']. }
    cbn [parseArgs].
    destruct (String.eqb arg "--qr-error" || String.eqb arg "-e").
    { destruct (Builtin.upperAmong levels _) as [level|] eqn:E; [|discriminate].
      apply After. unfold wellFormed. cbn [maxBase32Length qrErrorCorrection qrVersion qrMode].
      split; [exact W1|]. split; [eapply upperAmong_member; eauto|].
      split; [exact W3 | exact W4]. }
    destruct (String.eqb arg "--qr-version" || String.eqb arg "-v").
    { destruct (versionArgument (hd_error rest)) as [v|] eqn:E; [|discriminate].
      apply After. apply versionArgument_range in E.
      unfold wellFormed. cbn [maxBase32Length qrErrorCorrection qrVersion qrMode].
      split; [exact W1|]. split; [exact W2|].
      split; [intros v' [= <-]; exact E | exact W4]. }
    destruct (String.eqb arg "--qr-mode" || String.eqb arg "-m").
    { destruct (Builtin.lowerAmong modes _) as [mode|] eqn:E; [|discriminate].
      apply After. unfold wellFormed. cbn [maxBase32Length qrErrorCorrection qrVersion qrMode].
      split; [exact W1|]. split; [exact W2|].
      split; [exact W3 | eapply lowerAmong_member; eauto]. }
    destruct (String.eqb arg "--help" || String.eqb arg "-h"); [discriminate|].
    destruct (Builtin.parseInt arg) as [z|].
    + destruct (lengthArgument z) as [m|] eqn:E; [|discriminate].
      apply IH; [lia|]. apply lengthArgument_configured in E.
      unfold wellFormed. cbn [maxBase32Length qrErrorCorrection qrVersion qrMode].
      split; [exact E|]. split; [exact W2|]. split; [exact W3 | exact W4].
    + apply IH; [lia|]. unfold wellFormed. auto.
Qed.

End StartupFacts.

(** X16.  When the argument loop lets the server start, the configuration
    is one the handlers can run with: the identifier length is between 1
    and 20, the error correction level is one of L, M, Q and H, the QR
    version is unset or between 1 and 40, and the mode is one of numeric,
    alphanumeric and byte. *)
Theorem X16_started_configuration_is_valid args c :
  Startup.start args = Startup.Started c ->
  lengthConfigured (Startup.maxBase32Length c) /\
  In (Startup.qrErrorCorrection c) ["L"; "M"; "Q"; "H"] /\
  (forall v, Startup.qrVersion c = Some v -> (1 <= v <= 40)%Z) /\
  In (Startup.qrMode c) ["numeric"; "alphanumeric"; "byte"].
Proof.
  intros H.
  apply (StartupFacts.parseArgs_wellFormed (List.length args) args Startup.initial c
           (le_n _)); [|exact H].
  unfold Startup.wellFormed, Startup.initial, Startup.levels, Startup.modes, defaultLength.
  cbn [Startup.maxBase32Length Startup.qrErrorCorrection Startup.qrVersion Startup.qrMode].
  split; [lia|]. split; [simpl; auto|]. split; [discriminate | simpl; auto].
Qed.

(** X17.  Among numeric arguments the last one sets the identifier length,
    not the first: when every argument is read as a number between 1 and
    20 the server starts with the length of the last argument and leaves
    the QR settings alone; and one number outside that range among numeric
    arguments ends the process with code 1. *)
Theorem X17_last_length_argument_wins c :
  (forall front a z,
     Forall Startup.lengthInRange front ->
     Builtin.parseInt a = Some z -> (0 < z <= 20)%Z ->
     Startup.parseArgs (front ++ [a]) c =
     Startup.Started
       (Startup.mkConfig (Z.to_nat z) (Startup.qrErrorCorrection c)
          (Startup.qrVersion c) (Startup.qrMode c))) /\
  (forall front a back,
     Forall Startup.lengthInRange front -> Startup.lengthOutOfRange a ->
     Startup.parseArgs (front ++ a :: back) c = Startup.Exited 1).
Proof.
  split.
  - intros front a z F. revert c. induction F as [|x front [v [Hx Hv]] F IH]; intros c Ha Hz.
    + simpl app. rewrite (StartupFacts.parseArgs_numeric a z [] c Ha),
        (StartupFacts.lengthArgument_in_range z Hz). reflexivity.
    + simpl app. rewrite (StartupFacts.parseArgs_numeric x v _ c Hx),
        (StartupFacts.lengthArgument_in_range v Hv).
      now rewrite IH.
  - intros front a back F [z [Ha Hz]]. revert c.
    induction F as [|x front [v [Hx Hv]] F IH]; intros c.
    + simpl app. now rewrite (StartupFacts.parseArgs_numeric a z back c Ha),
        (StartupFacts.lengthArgument_out_of_range z Hz).
    + simpl app. rewrite (StartupFacts.parseArgs_numeric x v _ c Hx),
        (StartupFacts.lengthArgument_in_range v Hv).
      apply IH.
Qed.

Module OptionFacts.
Import Startup.

Lemma upperUnits_nonempty c : exists u rest, Builtin.upperUnits c = u :: rest.
Proof.
  destruct c as [[] [] [] [] [] [] [] []]; vm_compute; eauto.
Qed.

(** No string of two or more code units has a one-letter upper-case form. *)
Lemma toUpperCase_long u c d r :
  Builtin.sameUnits [u] (Builtin.toUpperCase (String c (String d r))) = false.
Proof.
  cbn [Builtin.toUpperCase].
  destruct (upperUnits_nonempty c) as [x [l1 ->]].
  destruct (upperUnits_nonempty d) as [y [l2 ->]].
  cbn [app Builtin.sameUnits].
  destruct l1; cbn [app]; now rewrite andb_false_r.
Qed.

(** The values [--qr-error] accepts are the four letters in either case;
    the letter is kept in upper case. *)
Lemma upperAmong_levels s level :
  Builtin.upperAmong levels s = Some level <->
  In level levels /\ (s = level \/ s = Js.toLowerCase level).
Proof.
  split.
  - intros H. assert (M := StartupFacts.upperAmong_member _ _ _ H).
    split; [exact M|].
    destruct s as [|c [|d r]].
    + vm_compute in H. discriminate.
    + clear M. destruct c as [[] [] [] [] [] [] [] []]; vm_compute in H;
        try discriminate H; injection H as <-;
        first [left; reflexivity | right; reflexivity].
    + unfold Builtin.upperAmong, levels in H. cbn [find Builtin.units] in H.
      rewrite !toUpperCase_long in H. discriminate.
  - intros [M [-> | ->]];
      destruct M as [<-|[<-|[<-|[<-|[]]]]]; reflexivity.
Qed.

Lemma parseArgs_error_option flag value rest c :
  flag = "-e" \/ flag = "--qr-error" ->
  parseArgs (flag :: value :: rest) c =
  match Builtin.upperAmong levels (Builtin.orElse (Some value) "Q") with
  | Some level =>
      parseArgs rest (mkConfig (maxBase32Length c) level (qrVersion c) (qrMode c))
  | None => Exited 1
  end.
Proof. intros [-> | ->]; reflexivity. Qed.

End OptionFacts.

(** X18.  The error correction option takes its level in either letter
    case and keeps it in upper case: after [-e] or [--qr-error] one of
    l, m, q, h, L, M, Q, H sets the level to the capital letter and the
    loop goes on with the next argument; an empty value stands for Q; any
    other value ends the process with code 1. *)
Theorem X18_error_level_in_either_case flag value rest c :
  flag = "-e" \/ flag = "--qr-error" ->
  (forall level,
     In level ["L"; "M"; "Q"; "H"] ->
     value = level \/ value = Js.toLowerCase level ->
     Startup.parseArgs (flag :: value :: rest) c =
     Startup.parseArgs rest
       (Startup.mkConfig (Startup.maxBase32Length c) level
          (Startup.qrVersion c) (Startup.qrMode c))) /\
  (value = "" ->
   Startup.parseArgs (flag :: value :: rest) c =
   Startup.parseArgs rest
     (Startup.mkConfig (Startup.maxBase32Length c) "Q"
        (Startup.qrVersion c) (Startup.qrMode c))) /\
  (value <> "" ->
   (forall level, In level ["L"; "M"; "Q"; "H"] ->
      value <> level /\ value <> Js.toLowerCase level) ->
   Startup.parseArgs (flag :: value :: rest) c = Startup.Exited 1).
Proof.
  intros F. rewrite (OptionFacts.parseArgs_error_option flag value rest c F).
  split; [|split].
  - intros level M V.
    assert (N : value <> "").
    { destruct M as [<-|[<-|[<-|[<-|[]]]]]; destruct V as [-> | ->]; discriminate. }
    unfold Builtin.orElse. apply String.eqb_neq in N. rewrite N.
    now rewrite (proj2 (OptionFacts.upperAmong_levels value level) (conj M V)).
  - intros ->. reflexivity.
  - intros N Other. unfold Builtin.orElse. apply String.eqb_neq in N. rewrite N.
    destruct (Builtin.upperAmong Startup.levels value) as [level|] eqn:E; [|reflexivity].
    apply OptionFacts.upperAmong_levels in E as [M V].
    destruct (Other level M) as [O1 O2]. destruct V; contradiction.
Qed.

Module AcceptFacts.

Lemma prefix_spec p s :
  String.prefix p s = true <-> exists rest, s = p ++ rest.
Proof.
  revert s. induction p as [|c p IH]; intros s.
  - split; [intros _; exists s; reflexivity | intros _; destruct s; reflexivity].
  - destruct s as [|d s]; simpl.
    + split; [discriminate | intros [rest H]; discriminate].
    + destruct (ascii_dec c d) as [->|Hne].
      * rewrite IH. split; intros [rest H]; exists rest; [now rewrite H | now injection H].
      * split; [discriminate | intros [rest H]; injection H as H1 _; congruence].
Qed.

(** [includes] finds the needle anywhere in the string. *)
Lemma includes_spec needle hay :
  Js.includes needle hay = true <->
  exists before after, hay = before ++ needle ++ after.
Proof.
  induction hay as [|c hay IH].
  - cbn [Js.includes]. rewrite orb_false_r, prefix_spec. split.
    + intros [rest H]. exists "", rest. exact H.
    + intros [before [after H]]. destruct before; [now exists after | discriminate].
  - cbn [Js.includes]. rewrite orb_true_iff, prefix_spec, IH. split.
    + intros [[rest H]|[before [after H]]].
      * exists "", rest. exact H.
      * exists (String c before), after. simpl. now rewrite H.
    + intros [[|d before] [after H]].
      * left. now exists after.
      * right. simpl in H. injection H as _ H. now exists before, after.
Qed.

End AcceptFacts.

Section Negotiation.

Variable maxBase32Length : nat.
Variable md5Hex : string -> string.
Variable base32Encode : string -> string.
Variable urlParses : string -> bool.

(** X19.  A created redirect is reported as JSON exactly when the request
    has an [Accept] header in which [application/json] occurs, as written,
    somewhere; otherwise it is reported as a page. *)
Theorem X19_json_when_accept_mentions_it req ent tbl t now t' asJson qr id url :
  apiAddAmong maxBase32Length md5Hex base32Encode urlParses req ent tbl t now =
    (t', Created asJson qr id url) ->
  (asJson = true <->
   exists header before after,
     accept req = Some header /\ header = before ++ "application/json" ++ after).
Proof.
  intros H. apply apiAddAmong_Created in H as [_ [_ [_ ->]]].
  unfold wantsJson. destruct (accept req) as [header|].
  - rewrite AcceptFacts.includes_spec. split.
    + intros [b [a E]]. eauto.
    + intros [h [b [a [[= <-] E]]]]. eauto.
  - split; [discriminate | intros [h [b [a [E _]]]]; discriminate].
Qed.

End Negotiation.

(** * The further properties on sample runs *)

Lemma scenario_table : Scenario.table = Sample.afterSecond.
Proof. vm_compute. reflexivity. Qed.

Lemma withKey_unique : Store.keysUnique Sample.withKey.
Proof.
  unfold Store.keysUnique. vm_compute. constructor; [intros [] | constructor].
Qed.

(** With length 1 and [h] taken, the first candidate collides and the
    second, [g], is returned after two lookups. *)
Lemma X1_witness :
  1 < maxAttempts /\
  Store.getById Scenario.oneTaken
    (candidate 1 MD5.md5Hex Base32.encode Sample.exampleUrl (Sample.entropy 1) 1) = None /\
  generateBase32Id 1 MD5.md5Hex Base32.encode Sample.exampleUrl Sample.entropy
    (fun _ => Scenario.oneTaken) = (["h"; "g"], Some "g").
Proof.
  assert (B : 1 < maxAttempts) by (unfold maxAttempts; lia).
  assert (F : Store.getById Scenario.oneTaken
                (candidate 1 MD5.md5Hex Base32.encode Sample.exampleUrl (Sample.entropy 1) 1)
              = None) by (vm_compute; reflexivity).
  split; [exact B|]. split; [exact F|].
  assert (C : forall j, j < 1 ->
            Store.getById Scenario.oneTaken
              (candidate 1 MD5.md5Hex Base32.encode Sample.exampleUrl (Sample.entropy j) j)
            <> None).
  { intros j Hj. destruct j; [vm_compute; discriminate | lia]. }
  exact (X1_allocator_returns_first_free 1 MD5.md5Hex Base32.encode Sample.exampleUrl
           Sample.entropy (fun _ => Scenario.oneTaken) 1 B F C).
Defined.

(** The generated identifier [hbqwinz] resolves when asked for in
    capitals. *)
Lemma X4_witness :
  Sample.addAmong 7 (Sample.keyless Sample.exampleUrl) Sample.entropy (fun _ => []) []
    Sample.clock =
    (Sample.afterFirst, Created false "qr.local/hbqwinz" "hbqwinz" Sample.exampleUrl) /\
  Js.toLowerCase "HBQWINZ" = "hbqwinz" /\
  apiResolve Sample.afterFirst 1700000100 "HBQWINZ" =
    (Store.recordVisit Sample.afterFirst 1700000100 "hbqwinz", Redirect Sample.exampleUrl).
Proof.
  assert (A : Sample.addAmong 7 (Sample.keyless Sample.exampleUrl) Sample.entropy
                (fun _ => []) [] Sample.clock =
              (Sample.afterFirst, Created false "qr.local/hbqwinz" "hbqwinz" Sample.exampleUrl))
    by (vm_compute; reflexivity).
  split; [exact A|]. split; [reflexivity|].
  exact (proj2 (proj2 (X4_created_id_resolves 7 MD5.md5Hex Base32.encode SampleUrl.urlParses
                         _ _ _ _ _ _ _ _ _ _ A)) "HBQWINZ" 1700000100%N eq_refl).
Defined.

(** After [MYKEY23] has been taken, [MyKey23] is refused. *)
Lemma X5_witness :
  "MYKEY23" <> "" /\
  Js.toLowerCase "MyKey23" = Js.toLowerCase "MYKEY23" /\
  validUrl SampleUrl.urlParses Sample.otherUrl /\
  Sample.add 7 Sample.withKey (Sample.clock + 60) Sample.laterEntropy
    (Sample.keyed Sample.otherUrl "MyKey23") =
  (Sample.withKey, JsonError 409 "Custom key already exists. Choose a different key.").
Proof.
  assert (N : "MYKEY23" <> "") by discriminate.
  assert (V : validUrl SampleUrl.urlParses Sample.otherUrl)
    by (split; [discriminate | reflexivity]).
  assert (A : Sample.add 7 [] Sample.clock Sample.entropy
                (Sample.keyed Sample.exampleUrl "MYKEY23") =
              (Sample.withKey, Created false "qr.local/mykey23" "mykey23" Sample.exampleUrl))
    by (vm_compute; reflexivity).
  split; [exact N|]. split; [reflexivity|]. split; [exact V|].
  exact (proj1 (X5_key_taken_in_any_case 7 MD5.md5Hex Base32.encode SampleUrl.urlParses
                  [] Sample.clock Sample.entropy Sample.exampleUrl "MYKEY23" None
                  Sample.withKey false "qr.local/mykey23" "mykey23" Sample.exampleUrl
                  (Sample.clock + 60)%N Sample.laterEntropy Sample.otherUrl "MyKey23" None
                  N A eq_refl V)).
Defined.

(** An add request whose insert runs on the table with [mykey23] keeps the
    identifiers distinct. *)
Lemma X6_witness :
  Store.keysUnique Sample.withKey /\
  Store.keysUnique
    (fst (Sample.addAmong 7 (Sample.keyless Sample.exampleUrl) Sample.entropy (fun _ => [])
            Sample.withKey (Sample.clock + 60))).
Proof.
  split; [exact withKey_unique|].
  exact (proj2 (X6_identifiers_unique 7 MD5.md5Hex Base32.encode SampleUrl.urlParses)
           (Sample.keyless Sample.exampleUrl) Sample.entropy (fun _ => [])
           Sample.withKey (Sample.clock + 60)%N withKey_unique).
Defined.

(** A visit leaves the destination and creation time of [mykey23]. *)
Lemma X8_witness :
  Store.getById Sample.withKey "mykey23" =
    Some (Store.mkRow "mykey23" Sample.exampleUrl Sample.clock 0 None) /\
  Store.getById
    (fst (handle 7 MD5.md5Hex Base32.encode SampleUrl.urlParses Sample.withKey
            (Resolve 1700000100 "MYKEY23"))) "mykey23" =
    Some (Store.mkRow "mykey23" Sample.exampleUrl Sample.clock 1 (Some 1700000100%N)) /\
  Store.url (Store.mkRow "mykey23" Sample.exampleUrl Sample.clock 1 (Some 1700000100%N)) =
    Sample.exampleUrl.
Proof.
  assert (G : Store.getById Sample.withKey "mykey23" =
              Some (Store.mkRow "mykey23" Sample.exampleUrl Sample.clock 0 None))
    by (vm_compute; reflexivity).
  assert (G' : Store.getById
                 (fst (handle 7 MD5.md5Hex Base32.encode SampleUrl.urlParses Sample.withKey
                         (Resolve 1700000100 "MYKEY23"))) "mykey23" =
               Some (Store.mkRow "mykey23" Sample.exampleUrl Sample.clock 1
                       (Some 1700000100%N)))
    by (vm_compute; reflexivity).
  split; [exact G|]. split; [exact G'|].
  exact (proj1 (proj2 (X8_records_keep_destination 7 MD5.md5Hex Base32.encode
                         SampleUrl.urlParses _ _ _ _ _ G G'))).
Defined.

(** The second record for the sample destination can be reached. *)
Lemma X9_witness :
  In Scenario.second Scenario.table /\
  apiResolve Scenario.table 1700000100 "gm4tmyz" =
    (Store.recordVisit Scenario.table 1700000100 "gm4tmyz", Redirect Sample.exampleUrl).
Proof.
  assert (Hin : In Scenario.second Scenario.table)
    by (rewrite scenario_table; vm_compute; right; left; reflexivity).
  split; [exact Hin|].
  exact (proj1 (X9_every_record_resolves 7 MD5.md5Hex Base32.encode SampleUrl.urlParses
                  Scenario.requests Scenario.second 1700000100%N Hin)).
Defined.

(** Three visits to [MyKey23]. *)
Lemma X10_witness :
  Store.getById Sample.withKey (Js.toLowerCase "MyKey23") =
    Some (Store.mkRow "mykey23" Sample.exampleUrl Sample.clock 0 None) /\
  Store.getById (visitAt "MyKey23" [1700000100; 1700000200; 1700000300]%N Sample.withKey)
    (Js.toLowerCase "MyKey23") =
    Some (Store.mkRow "mykey23" Sample.exampleUrl Sample.clock 3 (Some 1700000300%N)).
Proof.
  assert (G : Store.getById Sample.withKey (Js.toLowerCase "MyKey23") =
              Some (Store.mkRow "mykey23" Sample.exampleUrl Sample.clock 0 None))
    by (vm_compute; reflexivity).
  split; [exact G|].
  exact (X10_visits_add_up "MyKey23" [1700000100; 1700000200; 1700000300]%N
           Sample.withKey _ G).
Defined.

(** [MYKEY23] deleted, [mykey23] is gone. *)
Lemma X11_witness :
  apiDelete Sample.withKey "MYKEY23" = ([], Deleted "mykey23" Sample.exampleUrl) /\
  apiResolve [] 1700000100 "mykey23" = ([], Send 404 "Redirect not found") /\
  apiDelete [] "mykey23" = ([], JsonError 404 "Redirect not found").
Proof.
  assert (D : apiDelete Sample.withKey "MYKEY23" = ([], Deleted "mykey23" Sample.exampleUrl))
    by (vm_compute; reflexivity).
  split; [exact D|].
  destruct (proj2 (X11_delete_is_final _ _ _ _ _ D) "mykey23" eq_refl) as [R D2].
  split; [exact (R 1700000100%N) | exact D2].
Defined.

Lemma X12_witness :
  Store.keysUnique Sample.withKey /\
  apiDelete Sample.withKey "MYKEY23" = ([], Deleted "mykey23" Sample.exampleUrl) /\
  S (List.length (@nil Store.Row)) = List.length Sample.withKey.
Proof.
  assert (D : apiDelete Sample.withKey "MYKEY23" = ([], Deleted "mykey23" Sample.exampleUrl))
    by (vm_compute; reflexivity).
  split; [exact withKey_unique|]. split; [exact D|].
  exact (proj1 (X12_delete_removes_one _ _ _ _ _ withKey_unique D)).
Defined.

(** A destination no record has is reported absent. *)
Lemma X13_witness :
  validUrl SampleUrl.urlParses Sample.otherUrl /\
  (forall r, In r Sample.afterSecond -> Store.url r <> Sample.otherUrl) /\
  Sample.check Sample.afterSecond (Js.Str Sample.otherUrl) = CheckAbsent.
Proof.
  assert (V : validUrl SampleUrl.urlParses Sample.otherUrl)
    by (split; [discriminate | reflexivity]).
  assert (A : forall r, In r Sample.afterSecond -> Store.url r <> Sample.otherUrl).
  { intros r Hr. vm_compute in Hr. destruct Hr as [<-|[<-|[]]]; discriminate. }
  split; [exact V|]. split; [exact A|].
  exact (proj2 (proj1 (X13_check_reports_first_record 7 MD5.md5Hex Base32.encode
                         SampleUrl.urlParses Sample.afterSecond Sample.otherUrl V)) A).
Defined.

(** Beside the generated identifier [71gp8dt], the code for [MYKEY23] is
    asked for in alphanumeric mode; so is the code for [71gp8dt] itself. *)
Lemma X14_witness :
  Qr.askedOf (Qr.display Scenario.tooBig Scenario.versionOne Program.mixed "MYKEY23") =
    Some (Qr.ToDataURL "qr.local/mykey23"
            (Qr.mkOptions "Q" "png" (92, 100) 1 "#000000" "#FFFFFF" (Some 1%Z)
               "alphanumeric")) /\
  ~ overAlphabet "71gp8dt" /\
  overAlphabet "mykey23" /\
  "alphanumeric" <> "numeric".
Proof.
  assert (D : Qr.askedOf
                (Qr.display Scenario.tooBig Scenario.versionOne Program.mixed "MYKEY23") =
              Some (Qr.ToDataURL "qr.local/mykey23"
                      (Qr.mkOptions "Q" "png" (92, 100) 1 "#000000" "#FFFFFF" (Some 1%Z)
                         "alphanumeric")))
    by (vm_compute; reflexivity).
  split; [exact D|]. split; [unfold overAlphabet; vm_compute; discriminate|].
  split; [reflexivity|].
  exact (proj1 (X14_qr_mode_never_numeric Scenario.tooBig Scenario.versionOne Program.mixed
                  "MYKEY23" _ (or_introl D))).
Defined.

(** Started with [-v 1], the renderer throws and the code asked for as
    [6CWKCRT], which would point at [qr.local/6cwkcrt], is answered with
    500. *)
Lemma X15_witness :
  snd (apiResolve Scenario.served 1700000100 "6CWKCRT") = Redirect Sample.exampleUrl /\
  exists stored,
    snd (apiResolve Scenario.served 1700000100 stored) = Redirect Sample.exampleUrl /\
    Qr.askedOf (Qr.display Scenario.tooBig Scenario.versionOne Scenario.served "6CWKCRT") =
      Some (Qr.generateQRCode Scenario.versionOne ("qr.local/" ++ stored) "png") /\
    Qr.display Scenario.tooBig Scenario.versionOne Scenario.served "6CWKCRT" =
      Qr.Failed (Qr.generateQRCode Scenario.versionOne ("qr.local/" ++ stored) "png")
        (Send 500 "Failed to generate QR code").
Proof.
  assert (R : snd (apiResolve Scenario.served 1700000100 "6CWKCRT") =
              Redirect Sample.exampleUrl)
    by (vm_compute; reflexivity).
  split; [exact R|].
  destruct (proj2 (X15_qr_points_at_live_redirect 7 MD5.md5Hex Base32Package.encode
                     SampleUrl.urlParses Scenario.tooBig Scenario.versionOne
                     Scenario.requests "6CWKCRT" 1700000100%N)
              Sample.exampleUrl R) as [stored [S [A [_ [_ [F _]]]]]].
  exists stored. split; [exact S|]. split; [exact A|].
  exact (proj1 (F eq_refl)).
Defined.

(** The second example of the usage text. *)
Lemma X16_witness :
  Startup.start ["14"; "-e"; "H"; "-v"; "2"] =
    Startup.Started (Startup.mkConfig 14 "H" (Some 2%Z) "alphanumeric") /\
  lengthConfigured 14.
Proof.
  assert (S : Startup.start ["14"; "-e"; "H"; "-v"; "2"] =
              Startup.Started (Startup.mkConfig 14 "H" (Some 2%Z) "alphanumeric"))
    by (vm_compute; reflexivity).
  split; [exact S|].
  exact (proj1 (X16_started_configuration_is_valid _ _ S)).
Defined.

(** [node index.js 5 9] runs with length 9. *)
Lemma X17_witness :
  Forall Startup.lengthInRange ["5"] /\
  Builtin.parseInt "9" = Some 9%Z /\
  Startup.parseArgs (["5"] ++ ["9"]) Startup.initial =
    Startup.Started (Startup.mkConfig 9 "Q" None "alphanumeric").
Proof.
  assert (F : Forall Startup.lengthInRange ["5"]).
  { constructor; [|constructor]. exists 5%Z. split; [reflexivity | lia]. }
  assert (R : (0 < 9 <= 20)%Z) by lia.
  split; [exact F|]. split; [reflexivity|].
  exact (proj1 (X17_last_length_argument_wins Startup.initial) ["5"] "9" 9%Z F eq_refl R).
Defined.

(** [-e h] sets the level H. *)
Lemma X18_witness :
  In "H" ["L"; "M"; "Q"; "H"] /\
  "h" = Js.toLowerCase "H" /\
  Startup.parseArgs ["-e"; "h"; "12"] Startup.initial =
  Startup.parseArgs ["12"] (Startup.mkConfig 7 "H" None "alphanumeric").
Proof.
  assert (M : In "H" ["L"; "M"; "Q"; "H"]) by (simpl; auto).
  split; [exact M|]. split; [reflexivity|].
  exact (proj1 (X18_error_level_in_either_case "-e" "h" ["12"] Startup.initial
                  (or_introl eq_refl)) "H" M (or_intror eq_refl)).
Defined.

(** A client that lists [application/json] among the types it accepts is
    answered in JSON. *)
Lemma X19_witness :
  Sample.addAmong 7 Scenario.negotiated Sample.entropy (fun _ => []) [] Sample.clock =
    (Sample.afterFirst, Created true "qr.local/hbqwinz" "hbqwinz" Sample.exampleUrl) /\
  exists header before after,
    accept Scenario.negotiated = Some header /\
    header = before ++ "application/json" ++ after.
Proof.
  assert (A : Sample.addAmong 7 Scenario.negotiated Sample.entropy (fun _ => []) []
                Sample.clock =
              (Sample.afterFirst, Created true "qr.local/hbqwinz" "hbqwinz" Sample.exampleUrl))
    by (vm_compute; reflexivity).
  split; [exact A|].
  exact (proj1 (X19_json_when_accept_mentions_it 7 MD5.md5Hex Base32.encode
                  SampleUrl.urlParses _ _ _ _ _ _ _ _ _ _ A) eq_refl).
Defined.

(** X20.  What the command line set reaches the renderer: for a server
    that has started, [generateQRCode] passes on the text it was given, the
    error correction level configured, and the QR version exactly when one
    was configured (a configured version is never 0, so the test
    [if (qrVersion)] never drops it); and the mode it asks for is one of
    the three the renderer knows. *)
Theorem X20_started_options_reach_renderer args c text format :
  Startup.start args = Startup.Started c ->
  Qr.textOf (Qr.generateQRCode c text format) = text /\
  Qr.errorCorrectionLevel (Qr.optionsOf (Qr.generateQRCode c text format)) =
    Startup.qrErrorCorrection c /\
  Qr.version (Qr.optionsOf (Qr.generateQRCode c text format)) = Startup.qrVersion c /\
  In (Qr.mode (Qr.optionsOf (Qr.generateQRCode c text format)))
    ["numeric"; "alphanumeric"; "byte"].
Proof.
  intros H.
  assert (W : Startup.wellFormed c).
  { apply (StartupFacts.parseArgs_wellFormed (List.length args) args Startup.initial c
             (le_n _)); [|exact H].
    unfold Startup.wellFormed, Startup.initial, Startup.levels, Startup.modes, defaultLength.
    cbn [Startup.maxBase32Length Startup.qrErrorCorrection Startup.qrVersion Startup.qrMode].
    split; [lia|]. split; [simpl; auto|]. split; [discriminate | simpl; auto]. }
  destruct W as [_ [_ [V _]]].
  assert (E : match Startup.qrVersion c with
              | Some v => if Z.eqb v 0 then None else Some v
              | None => None
              end = Startup.qrVersion c).
  { destruct (Startup.qrVersion c) as [v|]; [|reflexivity].
    specialize (V v eq_refl). destruct (Z.eqb v 0) eqn:Z0; [|reflexivity].
    apply Z.eqb_eq in Z0. lia. }
  assert (M : In (Qr.chooseMode (Startup.qrMode c) text) ["numeric"; "alphanumeric"; "byte"]).
  { unfold Qr.chooseMode. destruct (_ && _); [simpl; auto|].
    destruct (_ && _); simpl; auto. }
  unfold Qr.generateQRCode.
  destruct (String.eqb format "svg"); cbn [Qr.textOf Qr.optionsOf Qr.errorCorrectionLevel
                                           Qr.version Qr.mode]; rewrite E; auto.
Qed.

(** Started with [-v 2], the server asks for version 2. *)
Lemma X20_witness :
  Startup.start ["-v"; "2"] =
    Startup.Started (Startup.mkConfig 7 "Q" (Some 2%Z) "alphanumeric") /\
  Qr.version (Qr.optionsOf
    (Qr.generateQRCode (Startup.mkConfig 7 "Q" (Some 2%Z) "alphanumeric")
       "qr.local/hbqwinz" "svg")) = Some 2%Z.
Proof.
  assert (S : Startup.start ["-v"; "2"] =
              Startup.Started (Startup.mkConfig 7 "Q" (Some 2%Z) "alphanumeric"))
    by (vm_compute; reflexivity).
  split; [exact S|].
  exact (proj1 (proj2 (proj2 (X20_started_options_reach_renderer _ _ "qr.local/hbqwinz"
                                "svg" S)))).
Defined.
